(** * The BitBox Base RPC channel: a shallow embedding

    The Go packages [rpcclient] (connection to the base's middleware: liveness
    probe, websocket dial, noise handshake, opcode dispatch, synchronous RPC
    calls) and [bitboxbase] (the facade the rest of the application talks to)
    are embedded as Rocq functions in a monad carrying the effects visible
    from outside the process: log lines and I/O actions.  A Go panic is an
    explicit outcome. *)

From Stdlib Require Import ZArith NArith Lia List.
From Stdlib.Strings Require Import Byte Ascii String.
From stdpp Require Import base option list strings gmap.
Import ListNotations.

Local Open Scope string_scope.
Local Open Scope list_scope.

(** ** Package rpcmessages: reply shapes

    The package's declarations are outside the sources at hand; a reply is
    modelled with the fields the callers read, the rest kept in serialized
    form. *)

Module rpcmessages.

Record ErrorResponse := mkErrorResponse
  { Success : bool;
    ErrorRest : string  (* remaining fields, serialized *) }.

(** [ErrorResponse{}] *)
Definition ErrorResponse_zero : ErrorResponse := mkErrorResponse false "".

Record GetHostnameResponse := mkGetHostnameResponse
  { ErrorResponse_of : ErrorResponse;   (* field ErrorResponse *)
    Hostname : string }.

Definition GetHostnameResponse_zero : GetHostnameResponse :=
  mkGetHostnameResponse ErrorResponse_zero "".

Record GetEnvResponse := mkGetEnvResponse
  { Network : string;
    ElectrsRPCPort : string }.

Definition GetEnvResponse_zero : GetEnvResponse := mkGetEnvResponse "" "".

(** Replies whose fields no caller in these sources reads. *)
Record SampleInfoResponse := mkSampleInfoResponse { SampleInfoRest : string }.
Record VerificationProgressResponse :=
  mkVerificationProgressResponse { VerificationProgressRest : string }.
Record GetBaseVersionResponse := mkGetBaseVersionResponse { BaseVersionRest : string }.

Record SetHostnameArgs := mkSetHostnameArgs { SetHostnameArgs_Hostname : string }.
Record UserAuthenticateArgs := mkUserAuthenticateArgs
  { UserAuthenticateArgs_Username : string; UserAuthenticateArgs_Password : string }.
Record UserChangePasswordArgs := mkUserChangePasswordArgs
  { UserChangePasswordArgs_Username : string; UserChangePasswordArgs_NewPassword : string }.

End rpcmessages.

(** ** Go runtime notions *)

Module Go.

(** Errors as the two packages build and forward them. *)
Inductive error : Type :=
  | ErrExternal (msg : string)        (* raised by net/http, net/rpc, the remote *)
  | ErrNew (msg : string)             (* errp.New *)
  | ErrWithStack (cause : error)      (* errp.WithStack of a non-nil error *)
  | ErrShutdown                       (* net/rpc: connection is shut down *)
  | ErrResponse (r : rpcmessages.ErrorResponse).  (* a reply's ErrorResponse used as error *)

Inductive Level := LInfo | LError.

Record LogEntry := mkLog { level : Level; text : string; withError : option error }.

(** I/O actions a run performs, oldest first. *)
Inductive IOEvent :=
  | IOHttpGet (url : string)
  | IOWebsocketDial (url : string)
  | IONoiseHandshake
  | IORpcNewClient
  | IORunWebsocket
  | IORpcCall (serviceMethod : string)
  | IOCloseChan.

Record World := mkWorld { log : list LogEntry; io : list IOEvent }.

Definition emptyWorld : World := mkWorld [] [].

Inductive Outcome (A : Type) :=
  | Panic (reason : string)
  | Ret (a : A).
Arguments Panic {A} reason.
Arguments Ret {A} a.

(** Computations: world passing, interrupted by a panic. *)
Definition M (A : Type) : Type := World -> Outcome (A * World).

#[export] Instance M_ret : MRet M := fun A a w => Ret (a, w).
#[export] Instance M_bind : MBind M := fun A B f m w =>
  match m w with
  | Panic r => Panic r
  | Ret (a, w') => f a w'
  end.

Definition panic {A} (reason : string) : M A := fun _ => Panic reason.

Definition logInfo (msg : string) : M unit :=
  fun w => Ret (tt, mkWorld (log w ++ [mkLog LInfo msg None]) (io w)).
Definition logError (msg : string) : M unit :=
  fun w => Ret (tt, mkWorld (log w ++ [mkLog LError msg None]) (io w)).
Definition logErrorWith (e : error) (msg : string) : M unit :=
  fun w => Ret (tt, mkWorld (log w ++ [mkLog LError msg (Some e)]) (io w)).
Definition emit (ev : IOEvent) : M unit :=
  fun w => Ret (tt, mkWorld (log w) (io w ++ [ev])).

(** [string(b)] for a byte [b]: the UTF-8 encoding of the code point [b]. *)
Definition string_of_byte (b : byte) : string :=
  let n := Byte.to_N b in
  if (n <? 128)%N then String (ascii_of_N n) EmptyString
  else String (ascii_of_N (192 + N.shiftr n 6))
         (String (ascii_of_N (128 + N.land n 63)) EmptyString).

(** [s[i]]: panics out of range. *)
Definition index {A} (s : list A) (i : nat) : M A :=
  match s !! i with
  | Some x => mret x
  | None => panic "index out of range"
  end.

(** [s[i:]]: panics when [i > len(s)]. *)
Definition sliceFrom {A} (s : list A) (i : nat) : M (list A) :=
  if decide (i <= length s) then mret (drop i s)
  else panic "slice bounds out of range".

(** [copy(dst, src)]: the number of elements copied and the new [dst]. *)
Definition copy {A} (dst src : list A) : nat * list A :=
  let n := Nat.min (length dst) (length src) in
  (n, take n src ++ drop n dst).

(** An unbuffered channel, seen from one side: the values handed over and not
    yet received, and whether it was closed. *)
Record Chan (A : Type) := mkChan { pending : list A; closed : bool }.
Arguments mkChan {A} pending closed.
Arguments pending {A} c.
Arguments closed {A} c.

Definition makeChan {A} : Chan A := mkChan [] false.

(** [ch <- v]; sending on a closed channel panics. *)
Definition send {A} (ch : Chan A) (v : A) : M (Chan A) :=
  if closed ch then panic "send on closed channel"
  else mret (mkChan (pending ch ++ [v]) (closed ch)).

(** [close(ch)]; closing a closed channel panics. *)
Definition close {A} (ch : Chan A) : M (Chan A) :=
  if closed ch then panic "close of closed channel"
  else (_ ← emit IOCloseChan; mret (mkChan (pending ch) true)).

End Go.
Import Go.

(** ** Package bitboxbasestatus

    Declared outside the sources at hand; the constants below are the ones
    the two packages name. *)

Module bitboxbasestatus.

Inductive Status :=
  | StatusConnected
  | StatusInitialized
  | StatusOther (name : string).

Inductive Event :=
  | EventSampleInfoChange
  | EventVerificationProgressChange
  | EventDisconnect
  | EventStatusChange.

End bitboxbasestatus.
Import bitboxbasestatus.

(** The one-byte opcodes of [rpcmessages], string constants whose values are
    declared outside the sources at hand. *)
Class OpCodes := mkOpCodes
  { OpUCanHasSampleInfo : string;
    OpUCanHasVerificationProgress : string;
    OpRPCCall : string }.

(** ** What the process talks to *)

Inductive HttpResult :=
  | HttpFail (err : error)
  | HttpResponse (StatusCode : Z).

Record WebsocketConn := mkWebsocketConn { wsURL : string }.

Inductive DialResult :=
  | DialFail (err : error)
  | DialOk (ws : WebsocketConn).

Inductive ReplyKind :=
  | KErrorResponse | KGetHostname | KGetEnv
  | KSampleInfo | KVerificationProgress | KGetBaseVersion.

Definition replyType (k : ReplyKind) : Type :=
  match k with
  | KErrorResponse => rpcmessages.ErrorResponse
  | KGetHostname => rpcmessages.GetHostnameResponse
  | KGetEnv => rpcmessages.GetEnvResponse
  | KSampleInfo => rpcmessages.SampleInfoResponse
  | KVerificationProgress => rpcmessages.VerificationProgressResponse
  | KGetBaseVersion => rpcmessages.GetBaseVersionResponse
  end.

Inductive RpcArgs :=
  | ArgDummy (b : bool)
  | ArgSetHostname (a : rpcmessages.SetHostnameArgs)
  | ArgUserAuthenticate (a : rpcmessages.UserAuthenticateArgs)
  | ArgUserChangePassword (a : rpcmessages.UserChangePasswordArgs).

(** The appliance and the network in between: what an HTTP GET, a websocket
    dial and a remote call answer.  A remote call gets the caller's reply
    variable and gives back what it holds afterwards and the call's error. *)
Class Network := mkNetwork
  { httpGet : string -> HttpResult;
    websocketDial : string -> DialResult;
    rpcCall : forall k : ReplyKind, string -> RpcArgs -> replyType k -> replyType k * option error }.

Definition StatusOK : Z := 200.

(** ** Package rpcclient *)

Module rpcclient.

Record rpcConn := mkRpcConn
  { readChan : Chan (list byte);
    writeChan : Chan (list byte);
    closeChan : option (Chan unit) (* nil once closed *) }.

Definition newRPCConn : rpcConn :=
  mkRpcConn makeChan makeChan (Some makeChan).

Definition ReadChan (conn : rpcConn) := readChan conn.
Definition WriteChan (conn : rpcConn) := writeChan conn.
Definition CloseChan (conn : rpcConn) := closeChan conn.

Definition set_readChan (ch : Chan (list byte)) (conn : rpcConn) : rpcConn :=
  mkRpcConn ch (writeChan conn) (closeChan conn).
Definition set_writeChan (ch : Chan (list byte)) (conn : rpcConn) : rpcConn :=
  mkRpcConn (readChan conn) ch (closeChan conn).
Definition set_closeChan (ch : option (Chan unit)) (conn : rpcConn) : rpcConn :=
  mkRpcConn (readChan conn) (writeChan conn) ch.

(** [<-ch] on a channel of byte slices: the oldest pending value; the zero
    value on a closed and drained channel; [None] while the receive blocks. *)
Definition receive (ch : Chan (list byte)) : option (list byte * Chan (list byte)) :=
  match pending ch with
  | message :: rest => Some (message, mkChan rest (closed ch))
  | [] => if closed ch then Some ([], ch) else None
  end.

(** [Read(p)]: the connection afterwards, the buffer afterwards, [n] and
    [err]; [None] while it blocks on the read channel. *)
Definition Read (conn : rpcConn) (p : list byte)
  : option (rpcConn * list byte * nat * option error) :=
  match receive (readChan conn) with
  | None => None
  | Some (message, ch) =>
      let '(n, p') := copy p message in
      Some (set_readChan ch conn, p', n, None)
  end.

Definition Write (conn : rpcConn) (p : list byte) : M (rpcConn * nat * option error) :=
  ch ← send (writeChan conn) p;
  mret (set_writeChan ch conn, length p, None).

Definition Close (conn : rpcConn) : M (rpcConn * option error) :=
  match closeChan conn with
  | Some ch =>
      _ ← close ch;
      mret (set_closeChan None conn, None)
  | None => mret (conn, None)
  end.

(** The net/rpc client built over the connection, as far as closing and
    calling go.  Its codec is the [rpcConnection] of the [RPCClient] that
    owns it (one shared pointer), so [Client_Close] and [Client_Call] take
    that connection from their caller. *)
Record Client := mkClient { closing : bool }.

Definition NewClient : Client := mkClient false.

Definition Client_Close (cl : Client) (codec : rpcConn)
  : M (Client * rpcConn * option error) :=
  if closing cl then mret (cl, codec, Some ErrShutdown)
  else
    '(codec', err) ← Close codec;
    mret (mkClient true, codec', err).

Definition Client_Call `{net : Network} (k : ReplyKind) (cl : option Client)
    (serviceMethod : string) (args : RpcArgs) (reply : replyType k)
  : M (replyType k * option error) :=
  match cl with
  | None => panic "invalid memory address or nil pointer dereference"
  | Some c =>
      if closing c then mret (reply, Some ErrShutdown)
      else
        _ ← emit (IORpcCall serviceMethod);
        mret (rpcCall k serviceMethod args reply)
  end.

Record CipherState := mkCipherState { cipherStateRepr : list byte }.

(** [RPCClient]; [O] is the state of whoever registered the callbacks. *)
Record RPCClient (O : Type) := mkRPCClient
  { address : string;
    bitboxBaseConfigDir : string;
    bitboxBaseNoiseStaticPubkey : list byte;
    channelHash : string;
    channelHashAppVerified : bool;
    channelHashBitBoxBaseVerified : bool;
    sendCipher : option CipherState;
    receiveCipher : option CipherState;
    onChangeStatus : Status -> O -> O;
    onEvent : Event -> O -> O;
    onUnregister : O -> O * option error;
    client : option Client;
    rpcConnection : rpcConn }.
Arguments mkRPCClient {O}.
Arguments address {O} r.
Arguments bitboxBaseConfigDir {O} r.
Arguments bitboxBaseNoiseStaticPubkey {O} r.
Arguments channelHash {O} r.
Arguments channelHashAppVerified {O} r.
Arguments channelHashBitBoxBaseVerified {O} r.
Arguments sendCipher {O} r.
Arguments receiveCipher {O} r.
Arguments onChangeStatus {O} r.
Arguments onEvent {O} r.
Arguments onUnregister {O} r.
Arguments client {O} r.
Arguments rpcConnection {O} r.

Definition set_client {O} (c : option Client) (r : RPCClient O) : RPCClient O :=
  mkRPCClient (address r) (bitboxBaseConfigDir r) (bitboxBaseNoiseStaticPubkey r)
    (channelHash r) (channelHashAppVerified r) (channelHashBitBoxBaseVerified r)
    (sendCipher r) (receiveCipher r) (onChangeStatus r) (onEvent r) (onUnregister r)
    c (rpcConnection r).

Definition set_rpcConnection {O} (conn : rpcConn) (r : RPCClient O) : RPCClient O :=
  mkRPCClient (address r) (bitboxBaseConfigDir r) (bitboxBaseNoiseStaticPubkey r)
    (channelHash r) (channelHashAppVerified r) (channelHashBitBoxBaseVerified r)
    (sendCipher r) (receiveCipher r) (onChangeStatus r) (onEvent r) (onUnregister r)
    (client r) conn.

(** The two methods of [RPCClient] that live in files outside the sources at
    hand: what the noise handshake and the start of the websocket loops do to
    the client and to the callbacks' owner. *)
Class Package (O : Type) := mkPackage
  { initializeNoise : WebsocketConn -> RPCClient O -> O -> Outcome (RPCClient O * O * option error);
    runWebsocket : WebsocketConn -> Chan (list byte) -> RPCClient O -> O -> Outcome (RPCClient O * O) }.

Definition liftOutcome {A} (r : Outcome A) : M A :=
  fun w => match r with Panic s => Panic s | Ret a => Ret (a, w) end.

Section methods.
Context {O : Type} `{net : Network} `{ops : OpCodes} `{pkg : Package O}.

Definition ChannelHash (rpcClient : RPCClient O) : string * bool :=
  (channelHash rpcClient, channelHashBitBoxBaseVerified rpcClient).

Definition Ping (rpcClient : RPCClient O) : M (bool * option error) :=
  let url := "http://" +:+ address rpcClient +:+ "/" in
  _ ← emit (IOHttpGet url);
  match httpGet url with
  | HttpFail err =>
      _ ← logErrorWith err "No response from middleware";
      mret (false, Some err)
  | HttpResponse StatusCode =>
      if decide (StatusCode ≠ StatusOK) then
        _ ← logError "Received http status code from middleware other than 200";
        mret (false, None)
      else mret (true, None)
  end.

Definition NewRPCClient (address bitboxBaseConfigDir : string)
    (onChangeStatus : Status -> O -> O) (onEvent : Event -> O -> O)
    (onUnregister : O -> O * option error)
  : M (option (RPCClient O) * option error) :=
  let rpcClient :=
    mkRPCClient address bitboxBaseConfigDir [] "" false false None None
      onChangeStatus onEvent onUnregister None newRPCConn in
  '(success, err) ← Ping rpcClient;
  if negb success then mret (None, err)
  else mret (Some rpcClient, None).

Definition Connect (rpcClient : RPCClient O) (o : O)
  : M (RPCClient O * O * option error) :=
  _ ← logInfo "connecting to base websocket";
  '(success, err) ← Ping rpcClient;
  if negb success then mret (rpcClient, o, err)
  else
    let url := "ws://" +:+ address rpcClient +:+ "/ws" in
    _ ← emit (IOWebsocketDial url);
    match websocketDial url with
    | DialFail _ =>
        mret (rpcClient, o, Some (ErrNew "rpcClient: failed to create new websocket client"))
    | DialOk ws =>
        _ ← emit IONoiseHandshake;
        '(rpcClient, o, err) ← liftOutcome (initializeNoise ws rpcClient o);
        match err with
        | Some e => mret (rpcClient, o, Some e)
        | None =>
            _ ← emit IORpcNewClient;
            let rpcClient := set_client (Some NewClient) rpcClient in
            _ ← emit IORunWebsocket;
            '(rpcClient, o) ← liftOutcome
               (runWebsocket ws (WriteChan (rpcConnection rpcClient)) rpcClient o);
            mret (rpcClient, o, None)
        end
    end.

Definition parseMessage (rpcClient : RPCClient O) (o : O) (message : list byte)
  : M (RPCClient O * O) :=
  if decide (length message = 0) then
    _ ← logError "Received empty message, dropping.";
    mret (rpcClient, o)
  else
    b ← index message 0;
    let opCode := string_of_byte b in
    if decide (opCode = OpUCanHasSampleInfo) then
      mret (rpcClient, onEvent rpcClient EventSampleInfoChange o)
    else if decide (opCode = OpUCanHasVerificationProgress) then
      mret (rpcClient, onEvent rpcClient EventVerificationProgressChange o)
    else if decide (opCode = OpRPCCall) then
      message ← sliceFrom message 1;
      ch ← send (ReadChan (rpcConnection rpcClient)) message;
      mret (set_rpcConnection (set_readChan ch (rpcConnection rpcClient)) rpcClient, o)
    else
      _ ← logError "Received message without opCode, dropping.";
      mret (rpcClient, o).

Definition Stop (rpcClient : RPCClient O) : M (RPCClient O) :=
  match client rpcClient with
  | None => panic "invalid memory address or nil pointer dereference"
  | Some cl =>
      '(cl, conn, err) ← Client_Close cl (rpcConnection rpcClient);
      let rpcClient := set_client (Some cl) (set_rpcConnection conn rpcClient) in
      match err with
      | Some e =>
          _ ← logErrorWith e "failed to close rpc client";
          mret rpcClient
      | None => mret rpcClient
      end
  end.

(** *** Synchronous calls *)

Definition GetEnv (rpcClient : RPCClient O) : M (rpcmessages.GetEnvResponse * option error) :=
  '(reply, err) ← Client_Call KGetEnv (client rpcClient) "RPCServer.GetSystemEnv"
                     (ArgDummy true) rpcmessages.GetEnvResponse_zero;
  match err with
  | Some e =>
      _ ← logErrorWith e "GetSystemEnv RPC call failed";
      mret (reply, Some e)
  | None => mret (reply, None)
  end.

Definition GetSampleInfo (rpcClient : RPCClient O)
  : M (rpcmessages.SampleInfoResponse * option error) :=
  '(reply, err) ← Client_Call KSampleInfo (client rpcClient) "RPCServer.GetSampleInfo"
                     (ArgDummy true) (rpcmessages.mkSampleInfoResponse "");
  match err with
  | Some e =>
      _ ← logErrorWith e "GetSampleInfo RPC call failed";
      mret (reply, Some e)
  | None => mret (reply, None)
  end.

Definition GetVerificationProgress (rpcClient : RPCClient O)
  : M (rpcmessages.VerificationProgressResponse * option error) :=
  '(reply, err) ← Client_Call KVerificationProgress (client rpcClient)
                     "RPCServer.GetVerificationProgress"
                     (ArgDummy true) (rpcmessages.mkVerificationProgressResponse "");
  match err with
  | Some e => mret (rpcmessages.mkVerificationProgressResponse "", Some (ErrWithStack e))
  | None => mret (reply, None)
  end.

(** The body shared by the methods whose reply is a bare [ErrorResponse]:
    log, call, and on error return [ErrorResponse{}] with the error wrapped. *)
Definition errorResponseCall (rpcClient : RPCClient O) (name : string) (args : RpcArgs)
  : M (rpcmessages.ErrorResponse * option error) :=
  _ ← logInfo ("Executing " +:+ name +:+ " rpc call");
  '(reply, err) ← Client_Call KErrorResponse (client rpcClient) ("RPCServer." +:+ name)
                     args rpcmessages.ErrorResponse_zero;
  match err with
  | Some e => mret (rpcmessages.ErrorResponse_zero, Some (ErrWithStack e))
  | None => mret (reply, None)
  end.

Definition ResyncBitcoin (rpcClient : RPCClient O) :=
  errorResponseCall rpcClient "ResyncBitcoin" (ArgDummy true).
Definition ReindexBitcoin (rpcClient : RPCClient O) :=
  errorResponseCall rpcClient "ReindexBitcoin" (ArgDummy true).
Definition SetHostname (rpcClient : RPCClient O) (args : rpcmessages.SetHostnameArgs) :=
  errorResponseCall rpcClient "SetHostname" (ArgSetHostname args).
Definition UserAuthenticate (rpcClient : RPCClient O) (args : rpcmessages.UserAuthenticateArgs) :=
  errorResponseCall rpcClient "UserAuthenticate" (ArgUserAuthenticate args).
Definition UserChangePassword (rpcClient : RPCClient O) (args : rpcmessages.UserChangePasswordArgs) :=
  errorResponseCall rpcClient "UserChangePassword" (ArgUserChangePassword args).
Definition MountFlashdrive (rpcClient : RPCClient O) :=
  errorResponseCall rpcClient "MountFlashdrive" (ArgDummy true).
Definition UnmountFlashdrive (rpcClient : RPCClient O) :=
  errorResponseCall rpcClient "UnmountFlashdrive" (ArgDummy true).
Definition BackupSysconfig (rpcClient : RPCClient O) :=
  errorResponseCall rpcClient "BackupSysconfig" (ArgDummy true).
Definition BackupHSMSecret (rpcClient : RPCClient O) :=
  errorResponseCall rpcClient "BackupHSMSecret" (ArgDummy true).
Definition RestoreSysconfig (rpcClient : RPCClient O) :=
  errorResponseCall rpcClient "RestoreSysconfig" (ArgDummy true).
Definition RestoreHSMSecret (rpcClient : RPCClient O) :=
  errorResponseCall rpcClient "RestoreHSMSecret" (ArgDummy true).

Definition GetHostname (rpcClient : RPCClient O)
  : M (rpcmessages.GetHostnameResponse * option error) :=
  _ ← logInfo "Executing GetHostname rpc call";
  '(reply, err) ← Client_Call KGetHostname (client rpcClient) "RPCServer.GetHostname"
                     (ArgDummy true) rpcmessages.GetHostnameResponse_zero;
  match err with
  | Some e => mret (rpcmessages.GetHostnameResponse_zero, Some (ErrWithStack e))
  | None => mret (reply, None)
  end.


End methods.
End rpcclient.

(** ** Package bitboxbase *)

Module bitboxbase.

Inductive Action := Replace.

(** [observable.Event] *)
Record ObservableEvent := mkObservableEvent
  { Subject : string; Action_of : Action; Object : Event }.

(** The fields of [BitBoxBase] other than the pointer to its RPC client.  The
    client's callbacks are methods of the base that touch these fields only,
    which is why they are kept apart from the pointer.  [notified] is what
    the embedded [observable.Implementation] has been asked to deliver,
    [unregistered] the identifiers handed to the [onUnregister] callback. *)
Record Fields := mkFields
  { notified : list ObservableEvent;
    bitboxBaseID : string;
    registerTime : Z;
    address : string;
    electrsRPCPort : string;
    network : string;
    bitboxBaseConfigDir : string;
    status : Status;
    active : bool;
    unregistered : list string }.

Record BitBoxBase := mkBitBoxBase
  { fields : Fields;
    rpcClient : option (rpcclient.RPCClient Fields) (* nil when absent *) }.

Definition set_notified (n : list ObservableEvent) (f : Fields) : Fields :=
  mkFields n (bitboxBaseID f) (registerTime f) (address f) (electrsRPCPort f) (network f)
    (bitboxBaseConfigDir f) (status f) (active f) (unregistered f).
Definition set_status (s : Status) (f : Fields) : Fields :=
  mkFields (notified f) (bitboxBaseID f) (registerTime f) (address f) (electrsRPCPort f)
    (network f) (bitboxBaseConfigDir f) s (active f) (unregistered f).
Definition set_active (a : bool) (f : Fields) : Fields :=
  mkFields (notified f) (bitboxBaseID f) (registerTime f) (address f) (electrsRPCPort f)
    (network f) (bitboxBaseConfigDir f) (status f) a (unregistered f).
Definition set_unregistered (u : list string) (f : Fields) : Fields :=
  mkFields (notified f) (bitboxBaseID f) (registerTime f) (address f) (electrsRPCPort f)
    (network f) (bitboxBaseConfigDir f) (status f) (active f) u.
Definition set_env (net port : string) (f : Fields) : Fields :=
  mkFields (notified f) (bitboxBaseID f) (registerTime f) (address f) port net
    (bitboxBaseConfigDir f) (status f) (active f) (unregistered f).
Definition set_fields (f : Fields) (base : BitBoxBase) : BitBoxBase :=
  mkBitBoxBase f (rpcClient base).

(** [strings.Split(s, ":")[0]] *)
Fixpoint beforeColon (s : string) : string :=
  match s with
  | EmptyString => EmptyString
  | String c rest => if Ascii.eqb c ":"%char then EmptyString else String c (beforeColon rest)
  end.

Definition nonActive : error := ErrNew "Attempted a call to non-active base".

(** *** Methods on the fields alone *)

Definition fireEvent (event : Event) (f : Fields) : Fields :=
  set_notified
    (notified f ++ [mkObservableEvent ("/bitboxbases/" +:+ bitboxBaseID f +:+ "/event") Replace event])
    f.

Definition changeStatus (s : Status) (f : Fields) : Fields :=
  fireEvent EventStatusChange (set_status s f).

Definition Deregister (f : Fields) : Fields * option error :=
  if negb (active f) then (f, Some (ErrNew "Attempted call to non-active base"))
  else
    let f := fireEvent EventDisconnect f in
    let f := set_unregistered (unregistered f ++ [bitboxBaseID f]) f in
    (set_active false f, None).

Definition Status_of (base : BitBoxBase) : Status := status (fields base).
Definition Identifier (base : BitBoxBase) : string := bitboxBaseID (fields base).
Definition GetRegisterTime (base : BitBoxBase) : Z := registerTime (fields base).
Definition isTestnet (base : BitBoxBase) : bool := String.eqb (network (fields base)) "testnet".
Definition Self (base : BitBoxBase) : BitBoxBase := base.
Definition RPCClient (base : BitBoxBase) := rpcClient base.

(** A method called through the [rpcClient] pointer dereferences it. *)
Definition deref {A} (p : option A) : M A :=
  match p with
  | Some x => mret x
  | None => panic "invalid memory address or nil pointer dereference"
  end.

Section methods.
Context `{net : Network} `{pkg : rpcclient.Package Fields}.

Definition NewBitBoxBase (address id bitboxBaseConfigDir : string) (now : Z)
  : M (BitBoxBase * option error) :=
  let f := mkFields [] id now (beforeColon address) "" "" bitboxBaseConfigDir
             StatusConnected false [] in
  '(rpcClient, err) ← rpcclient.NewRPCClient address bitboxBaseConfigDir
                         changeStatus fireEvent Deregister;
  mret (mkBitBoxBase f rpcClient, err).

Definition ConnectRPCClient (base : BitBoxBase) : M (BitBoxBase * option error) :=
  c ← deref (rpcClient base);
  '(c, f, err) ← rpcclient.Connect c (fields base);
  let base := mkBitBoxBase f (Some c) in
  match err with
  | Some e => mret (base, Some e)
  | None =>
      '(response, err) ← rpcclient.GetEnv c;
      match err with
      | Some e => mret (base, Some e)
      | None =>
          let f := set_env (rpcmessages.Network response)
                     (rpcmessages.ElectrsRPCPort response) (fields base) in
          mret (set_fields (set_active true f) base, None)
      end
  end.

Definition ChannelHash (base : BitBoxBase) : M (string * bool) :=
  c ← deref (rpcClient base);
  mret (rpcclient.ChannelHash c).

Definition MiddlewareInfo (base : BitBoxBase)
  : M (rpcmessages.SampleInfoResponse * option error) :=
  if negb (active (fields base)) then
    mret (rpcmessages.mkSampleInfoResponse "", Some nonActive)
  else
    c ← deref (rpcClient base);
    rpcclient.GetSampleInfo c.

Definition VerificationProgress (base : BitBoxBase)
  : M (rpcmessages.VerificationProgressResponse * option error) :=
  if negb (active (fields base)) then
    mret (rpcmessages.mkVerificationProgressResponse "", Some nonActive)
  else
    c ← deref (rpcClient base);
    rpcclient.GetVerificationProgress c.

Definition ReindexBitcoin (base : BitBoxBase) : M (BitBoxBase * option error) :=
  if negb (active (fields base)) then mret (base, Some nonActive)
  else
    _ ← logInfo "bitboxbase is making a ReindexBitcoin call";
    c ← deref (rpcClient base);
    '(reply, err) ← rpcclient.ReindexBitcoin c;
    let base := set_fields (changeStatus StatusInitialized (fields base)) base in
    match err with
    | Some e => mret (base, Some e)
    | None =>
        if negb (rpcmessages.Success reply) then mret (base, Some (ErrResponse reply))
        else mret (base, None)
    end.

Definition ResyncBitcoin (base : BitBoxBase) : M (BitBoxBase * option error) :=
  if negb (active (fields base)) then mret (base, Some nonActive)
  else
    _ ← logInfo "bitboxbase is making a ResyncBitcoin call";
    c ← deref (rpcClient base);
    '(reply, err) ← rpcclient.ResyncBitcoin c;
    let base := set_fields (changeStatus StatusInitialized (fields base)) base in
    match err with
    | Some e => mret (base, Some e)
    | None =>
        if negb (rpcmessages.Success reply) then mret (base, Some (ErrResponse reply))
        else mret (base, None)
    end.

Definition GetHostname (base : BitBoxBase) : M (string * option error) :=
  if negb (active (fields base)) then mret ("", Some nonActive)
  else
    _ ← logInfo "bitboxbase is making a GetHostname call";
    c ← deref (rpcClient base);
    '(reply, err) ← rpcclient.GetHostname c;
    match err with
    | Some e => mret ("", Some e)
    | None =>
        if negb (rpcmessages.Success (rpcmessages.ErrorResponse_of reply)) then
          mret ("", Some (ErrResponse (rpcmessages.ErrorResponse_of reply)))
        else mret (rpcmessages.Hostname reply, None)
    end.

(** The body shared by the operations that forward to a call with a bare
    [ErrorResponse] reply and assign no field of the base: the activity guard,
    the log line, the call, the error, the reply's [Success]. *)
Definition forward (base : BitBoxBase) (logLine : string)
    (call : rpcclient.RPCClient Fields -> M (rpcmessages.ErrorResponse * option error))
  : M (BitBoxBase * option error) :=
  if negb (active (fields base)) then mret (base, Some nonActive)
  else
    _ ← logInfo logLine;
    c ← deref (rpcClient base);
    '(reply, err) ← call c;
    match err with
    | Some e => mret (base, Some e)
    | None =>
        if negb (rpcmessages.Success reply) then mret (base, Some (ErrResponse reply))
        else mret (base, None)
    end.

Definition SetHostname (base : BitBoxBase) (hostname : string) :=
  forward base "bitboxbase is making a SetHostname call"
    (fun c => rpcclient.SetHostname c (rpcmessages.mkSetHostnameArgs hostname)).

Definition UserAuthenticate (base : BitBoxBase) (username password : string) :=
  forward base "bitboxbase is making a UserAuthenticate call"
    (fun c => rpcclient.UserAuthenticate c (rpcmessages.mkUserAuthenticateArgs username password)).

Definition UserChangePassword (base : BitBoxBase) (username newPassword : string) :=
  forward base "bitboxbase is making a UserChangePassword call"
    (fun c => rpcclient.UserChangePassword c
                (rpcmessages.mkUserChangePasswordArgs username newPassword)).

Definition MountFlashdrive (base : BitBoxBase) :=
  forward base "bitboxbase is making a MountFlashdrive call" rpcclient.MountFlashdrive.

Definition UnmountFlashdrive (base : BitBoxBase) :=
  forward base "bitboxbase is making a UnmountFlashdrive call" rpcclient.UnmountFlashdrive.

Definition BackupSysconfig (base : BitBoxBase) :=
  forward base "bitboxbase is making a UnmountFlashdrive call" rpcclient.BackupSysconfig.

Definition BackupHSMSecret (base : BitBoxBase) :=
  forward base "bitboxbase is making a UnmountFlashdrive call" rpcclient.BackupHSMSecret.

Definition RestoreHSMSecret (base : BitBoxBase) :=
  forward base "bitboxbase is making a UnmountFlashdrive call" rpcclient.RestoreHSMSecret.

Definition RestoreSysconfig (base : BitBoxBase) :=
  forward base "bitboxbase is making a UnmountFlashdrive call" rpcclient.RestoreSysconfig.

Definition Close (base : BitBoxBase) : M BitBoxBase :=
  c ← deref (rpcClient base);
  c ← rpcclient.Stop c;
  mret (mkBitBoxBase (fields base) (Some c)).

Definition Ping (base : BitBoxBase) : M (bool * option error) :=
  c ← deref (rpcClient base);
  rpcclient.Ping c.

(** *** The operations of [Interface] that make a remote call, as one family *)

Inductive Operation :=
  | OpMiddlewareInfo | OpVerificationProgress
  | OpReindexBitcoin | OpResyncBitcoin
  | OpGetHostname
  | OpSetHostname (hostname : string)
  | OpUserAuthenticate (username password : string)
  | OpUserChangePassword (username newPassword : string)
  | OpMountFlashdrive | OpUnmountFlashdrive
  | OpBackupSysconfig | OpBackupHSMSecret
  | OpRestoreSysconfig | OpRestoreHSMSecret.

(** Runs an operation, keeping the base afterwards and the returned error.
    An operation without a pointer-receiver assignment gives the base back. *)
Definition perform (op : Operation) (base : BitBoxBase) : M (BitBoxBase * option error) :=
  match op with
  | OpMiddlewareInfo => '(_, err) ← MiddlewareInfo base; mret (base, err)
  | OpVerificationProgress => '(_, err) ← VerificationProgress base; mret (base, err)
  | OpReindexBitcoin => ReindexBitcoin base
  | OpResyncBitcoin => ResyncBitcoin base
  | OpGetHostname => '(_, err) ← GetHostname base; mret (base, err)
  | OpSetHostname h => SetHostname base h
  | OpUserAuthenticate u p => UserAuthenticate base u p
  | OpUserChangePassword u p => UserChangePassword base u p
  | OpMountFlashdrive => MountFlashdrive base
  | OpUnmountFlashdrive => UnmountFlashdrive base
  | OpBackupSysconfig => BackupSysconfig base
  | OpBackupHSMSecret => BackupHSMSecret base
  | OpRestoreSysconfig => RestoreSysconfig base
  | OpRestoreHSMSecret => RestoreHSMSecret base
  end.

Definition changesStatus (op : Operation) : bool :=
  match op with
  | OpReindexBitcoin | OpResyncBitcoin => true
  | _ => false
  end.

End methods.
End bitboxbase.

(** ** Pairing store and connection state machine

    The file of [rpcclient] that runs the handshake and checks the remote
    static key against the pinned one is outside the sources at hand; this
    module follows the specification's sections on the pairing store and the
    connection state machine. *)

Module pairing.

#[export] Instance byte_eq_dec : EqDecision byte := Byte.byte_eq_dec.

Record RemoteIdentity := mkRemoteIdentity { identityAddress : string; identityID : string }.

#[export] Instance RemoteIdentity_eq_dec : EqDecision RemoteIdentity.
Proof. solve_decision. Defined.

#[export] Instance RemoteIdentity_countable : Countable RemoteIdentity.
Proof.
  refine (inj_countable' (fun r => (identityAddress r, identityID r))
            (fun p => mkRemoteIdentity p.1 p.2) _).
  by intros [].
Defined.

Abbreviation PubKey := (list byte).
Abbreviation Store := (gmap RemoteIdentity PubKey).

(** Modelled from the spec: [Lookup(identity) -> (pubkey, found)] of the
    Pairing Store, whose implementation is not among the sources. *)
Definition Lookup (identity : RemoteIdentity) (store : Store) : option PubKey :=
  store !! identity.

(** Modelled from the spec: [Pin(identity, pubkey)] of the Pairing Store,
    whose implementation is not among the sources. *)
Definition Pin (identity : RemoteIdentity) (pubkey : PubKey) (store : Store) : Store :=
  <[identity := pubkey]> store.

(** Modelled from the spec: [Remove(identity)] of the Pairing Store, whose
    implementation is not among the sources. *)
Definition Remove (identity : RemoteIdentity) (store : Store) : Store :=
  delete identity store.

Inductive ConnectionState :=
  | Disconnected | Connecting | AwaitingPairing | Active | Closed.

#[export] Instance ConnectionState_eq_dec : EqDecision ConnectionState.
Proof. solve_decision. Defined.

Inductive ConnectionError :=
  | PinMismatch        (* possible tampering *)
  | HandshakeFailed.

(** What happens to a connection, in arrival order. *)
Inductive Input :=
  | Dial
  | HandshakeDone (remoteStatic : PubKey)  (* the handshake negotiated this remote key *)
  | HandshakeBroken                        (* the negotiation itself failed *)
  | Frame (rpcPayload : list byte)         (* an inbound RPC payload *)
  | FingerprintVerified
  | RePair                                 (* the user explicitly re-pairs *)
  | CloseConn.

Record Connection := mkConnection
  { store : Store;
    peer : RemoteIdentity;
    state : ConnectionState;
    processed : list (list byte);   (* RPC payloads handed to the call multiplexer *)
    raised : list ConnectionError }.

Definition fresh (store : Store) (peer : RemoteIdentity) : Connection :=
  mkConnection store peer Disconnected [] [].

Definition allowsCalls (s : ConnectionState) : bool :=
  match s with
  | AwaitingPairing | Active => true
  | _ => false
  end.

(** Modelled from the spec: the connection state machine (Disconnected,
    Connecting, AwaitingPairing, Active, Closed) with the pairing policy:
    an unknown identity's key is pinned on its first successful handshake; a
    pinned identity presenting the pinned key proceeds without a prompt; a
    pinned identity presenting another key tears the connection down with a
    security error; re-pairing removes the pin and resets to Connecting;
    Closed is terminal.  The handshake code is not among the sources. *)
Definition step (c : Connection) (i : Input) : Connection :=
  match state c, i with
  | Closed, RePair =>
      mkConnection (Remove (peer c) (store c)) (peer c) Closed (processed c) (raised c)
  | Closed, _ => c
  | _, CloseConn => mkConnection (store c) (peer c) Closed (processed c) (raised c)
  | _, RePair =>
      mkConnection (Remove (peer c) (store c)) (peer c) Connecting (processed c) (raised c)
  | Disconnected, Dial => mkConnection (store c) (peer c) Connecting (processed c) (raised c)
  | Connecting, HandshakeDone k =>
      match Lookup (peer c) (store c) with
      | None =>
          mkConnection (Pin (peer c) k (store c)) (peer c) AwaitingPairing
            (processed c) (raised c)
      | Some pinned =>
          if decide (k = pinned) then
            mkConnection (store c) (peer c) Active (processed c) (raised c)
          else
            mkConnection (store c) (peer c) Closed (processed c) (raised c ++ [PinMismatch])
      end
  | Connecting, HandshakeBroken =>
      mkConnection (store c) (peer c) Closed (processed c) (raised c ++ [HandshakeFailed])
  | AwaitingPairing, FingerprintVerified =>
      mkConnection (store c) (peer c) Active (processed c) (raised c)
  | s, Frame payload =>
      if allowsCalls s then
        mkConnection (store c) (peer c) s (processed c ++ [payload]) (raised c)
      else c
  | _, _ => c
  end.

(** Modelled from the spec: a connection's life is its inputs taken in
    arrival order by the state machine, whose code is not among the sources. *)
Definition run (c : Connection) (inputs : list Input) : Connection :=
  fold_left step inputs c.

Definition isRePair (i : Input) : bool :=
  match i with RePair => true | _ => false end.

End pairing.

(** * Vocabulary of the statements *)

Module notions.

Definition probeURL (addr : string) : string := "http://" +:+ addr +:+ "/".
Definition dialURL (addr : string) : string := "ws://" +:+ addr +:+ "/ws".

Definition non200Line : LogEntry :=
  mkLog LError "Received http status code from middleware other than 200" None.

(** The I/O of a complete [Connect], in the order of its source text. *)
Definition connectSteps (addr : string) : list IOEvent :=
  [ IOHttpGet (probeURL addr); IOWebsocketDial (dialURL addr);
    IONoiseHandshake; IORpcNewClient; IORunWebsocket ].

Definition isPanic {A} (r : Outcome A) : Prop :=
  match r with Panic _ => True | Ret _ => False end.

(** The read loop's work on a run of decrypted frames: [parseMessage] on each
    frame in arrival order. *)
Fixpoint parseMessages `{ops : OpCodes} {O : Type} (rpcClient : rpcclient.RPCClient O) (o : O)
    (frames : list (list byte)) : M (rpcclient.RPCClient O * O) :=
  match frames with
  | [] => mret (rpcClient, o)
  | message :: later =>
      '(rpcClient, o) ← rpcclient.parseMessage rpcClient o message;
      parseMessages rpcClient o later
  end.

Definition emptyLine : LogEntry :=
  mkLog LError "Received empty message, dropping." None.
Definition noOpCodeLine : LogEntry :=
  mkLog LError "Received message without opCode, dropping." None.

(** The read channel has not been closed; nothing in the package closes it. *)
Definition readOpen {O : Type} (rpcClient : rpcclient.RPCClient O) : Prop :=
  closed (rpcclient.readChan (rpcclient.rpcConnection rpcClient)) = false.

(** The client after [message] was handed to the read channel. *)
Definition delivered {O : Type} (message : list byte) (rpcClient : rpcclient.RPCClient O)
  : rpcclient.RPCClient O :=
  let conn := rpcclient.rpcConnection rpcClient in
  rpcclient.set_rpcConnection
    (rpcclient.set_readChan
       (mkChan (pending (rpcclient.readChan conn) ++ [message]) false) conn)
    rpcClient.

(** What a call through a live net/rpc client comes back with: the shutdown
    error once the client is closing, the remote's answer otherwise. *)
Definition answer `{net : Network} (k : ReplyKind) (cl : rpcclient.Client)
    (serviceMethod : string) (args : RpcArgs) (reply : replyType k)
  : replyType k * option error :=
  if rpcclient.closing cl then (reply, Some ErrShutdown)
  else rpcCall k serviceMethod args reply.

(** The world after such a call: the call is I/O unless the client is closing. *)
Definition callWorld (cl : rpcclient.Client) (serviceMethod : string) (w : World) : World :=
  if rpcclient.closing cl then w
  else mkWorld (log w) (io w ++ [IORpcCall serviceMethod]).

(** The reply, remote method and arguments behind each operation, and the
    [ErrorResponse] a reply carries, if its shape has one. *)
Definition kindOf (op : bitboxbase.Operation) : ReplyKind :=
  match op with
  | bitboxbase.OpMiddlewareInfo => KSampleInfo
  | bitboxbase.OpVerificationProgress => KVerificationProgress
  | bitboxbase.OpGetHostname => KGetHostname
  | _ => KErrorResponse
  end.

Definition methodOf (op : bitboxbase.Operation) : string :=
  match op with
  | bitboxbase.OpMiddlewareInfo => "RPCServer.GetSampleInfo"
  | bitboxbase.OpVerificationProgress => "RPCServer.GetVerificationProgress"
  | bitboxbase.OpReindexBitcoin => "RPCServer.ReindexBitcoin"
  | bitboxbase.OpResyncBitcoin => "RPCServer.ResyncBitcoin"
  | bitboxbase.OpGetHostname => "RPCServer.GetHostname"
  | bitboxbase.OpSetHostname _ => "RPCServer.SetHostname"
  | bitboxbase.OpUserAuthenticate _ _ => "RPCServer.UserAuthenticate"
  | bitboxbase.OpUserChangePassword _ _ => "RPCServer.UserChangePassword"
  | bitboxbase.OpMountFlashdrive => "RPCServer.MountFlashdrive"
  | bitboxbase.OpUnmountFlashdrive => "RPCServer.UnmountFlashdrive"
  | bitboxbase.OpBackupSysconfig => "RPCServer.BackupSysconfig"
  | bitboxbase.OpBackupHSMSecret => "RPCServer.BackupHSMSecret"
  | bitboxbase.OpRestoreSysconfig => "RPCServer.RestoreSysconfig"
  | bitboxbase.OpRestoreHSMSecret => "RPCServer.RestoreHSMSecret"
  end.

Definition argsOf (op : bitboxbase.Operation) : RpcArgs :=
  match op with
  | bitboxbase.OpSetHostname h => ArgSetHostname (rpcmessages.mkSetHostnameArgs h)
  | bitboxbase.OpUserAuthenticate u p =>
      ArgUserAuthenticate (rpcmessages.mkUserAuthenticateArgs u p)
  | bitboxbase.OpUserChangePassword u p =>
      ArgUserChangePassword (rpcmessages.mkUserChangePasswordArgs u p)
  | _ => ArgDummy true
  end.

Definition zeroOf (k : ReplyKind) : replyType k :=
  match k with
  | KErrorResponse => rpcmessages.ErrorResponse_zero
  | KGetHostname => rpcmessages.GetHostnameResponse_zero
  | KGetEnv => rpcmessages.GetEnvResponse_zero
  | KSampleInfo => rpcmessages.mkSampleInfoResponse ""
  | KVerificationProgress => rpcmessages.mkVerificationProgressResponse ""
  | KGetBaseVersion => rpcmessages.mkGetBaseVersionResponse ""
  end.

Definition errorResponseOf (k : ReplyKind) : replyType k -> option rpcmessages.ErrorResponse :=
  match k with
  | KErrorResponse => fun r => Some r
  | KGetHostname => fun r => Some (rpcmessages.ErrorResponse_of r)
  | _ => fun _ => None
  end.

(** The failure of an operation's remote call, if it fails: the transport
    error, or the reply's [ErrorResponse] when it reports no success. *)
Definition remoteFailure `{net : Network} (op : bitboxbase.Operation) (cl : rpcclient.Client)
  : option error :=
  let k := kindOf op in
  let '(reply, err) := answer k cl (methodOf op) (argsOf op) (zeroOf k) in
  match err with
  | Some e => Some e
  | None =>
      match errorResponseOf k reply with
      | Some r => if rpcmessages.Success r then None else Some (ErrResponse r)
      | None => None
      end
  end.

(** The answer to the base's GetHostname call, when the base holds a client
    with a net/rpc client to make it. *)
Definition hostnameAnswer `{net : Network} (base : bitboxbase.BitBoxBase)
  : option (rpcmessages.GetHostnameResponse * option error) :=
  match bitboxbase.rpcClient base with
  | Some c =>
      match rpcclient.client c with
      | Some cl =>
          Some (answer KGetHostname cl "RPCServer.GetHostname" (ArgDummy true)
                  rpcmessages.GetHostnameResponse_zero)
      | None => None
      end
  | None => None
  end.

(** The claim of C4 as it stands, for one operation: when the remote call
    fails, the operation returns an error and the status is what it was. *)
Definition failureKeepsStatus (op : bitboxbase.Operation) : Prop :=
  forall (net : Network) (f : bitboxbase.Fields)
         (c : rpcclient.RPCClient bitboxbase.Fields) (cl : rpcclient.Client)
         (w : World) (e : error),
    bitboxbase.active f = true ->
    rpcclient.client c = Some cl ->
    remoteFailure op cl = Some e ->
    exists base' e' w',
      bitboxbase.perform op (bitboxbase.mkBitBoxBase f (Some c)) w = Ret (base', Some e', w')
      /\ bitboxbase.status (bitboxbase.fields base') = bitboxbase.status f.

End notions.
Import notions.

(** * Sample environments and inputs *)

Module samples.

(** A middleware answering the liveness probe with [code]; the websocket
    dial succeeds and remote calls leave the reply as it is, without error. *)
Definition netStatus (code : Z) : Network :=
  mkNetwork (fun _ => HttpResponse code)
            (fun url => DialOk (mkWebsocketConn url))
            (fun k _ _ reply => (reply, None)).

(** An appliance that does not answer at all. *)
Definition netDown : Network :=
  mkNetwork (fun _ => HttpFail (ErrExternal "connection refused"))
            (fun _ => DialFail (ErrExternal "connection refused"))
            (fun k _ _ reply => (reply, Some (ErrExternal "connection refused"))).

(** A reachable middleware whose remote calls all fail in transit. *)
Definition netCallsFail : Network :=
  mkNetwork (fun _ => HttpResponse 200)
            (fun url => DialOk (mkWebsocketConn url))
            (fun k _ _ reply => (reply, Some (ErrExternal "unexpected EOF"))).

(** A handshake and a loop start that succeed and change nothing. *)
Definition pkgQuiet (O : Type) : rpcclient.Package O :=
  rpcclient.mkPackage O (fun _ c o => Ret (c, o, None)) (fun _ _ c o => Ret (c, o)).

Definition opCodes : OpCodes := mkOpCodes "d" "v" "r".

Definition demoClient : rpcclient.RPCClient unit :=
  rpcclient.mkRPCClient "192.168.1.10:8845" "/config" [] "" false false None None
    (fun _ o => o) (fun _ o => o) (fun o => (o, None))
    (Some rpcclient.NewClient) rpcclient.newRPCConn.

(** A client as [NewRPCClient] leaves it: no net/rpc client yet. *)
Definition newClient : rpcclient.RPCClient unit :=
  rpcclient.set_client None demoClient.

(** A base made active by [ConnectRPCClient], still in its initial status. *)
Definition activeFields : bitboxbase.Fields :=
  bitboxbase.mkFields [] "base-1" 0 "192.168.1.10" "50002" "testnet" "/config"
    StatusConnected true [].

Definition baseClient : rpcclient.RPCClient bitboxbase.Fields :=
  rpcclient.mkRPCClient "192.168.1.10:8845" "/config" [] "" false false None None
    bitboxbase.changeStatus bitboxbase.fireEvent bitboxbase.Deregister
    (Some rpcclient.NewClient) rpcclient.newRPCConn.

Definition activeBase : bitboxbase.BitBoxBase :=
  bitboxbase.mkBitBoxBase activeFields (Some baseClient).

(** A base as [NewBitBoxBase] leaves it after a successful probe: inactive,
    its client without a net/rpc client yet. *)
Definition registeredBase : bitboxbase.BitBoxBase :=
  bitboxbase.mkBitBoxBase
    (bitboxbase.mkFields [] "base-1" 0 "192.168.1.10" "" "" "/config" StatusConnected false [])
    (Some (rpcclient.set_client None baseClient)).

End samples.
Import samples.

(** * Vocabulary of the further statements *)

Module coverage.

(** [Write] on each message of a run, in order: the connection afterwards
    and the counts returned. *)
Fixpoint writeAll (conn : rpcclient.rpcConn) (messages : list (list byte))
  : M (rpcclient.rpcConn * list nat * list (option error)) :=
  match messages with
  | [] => mret (conn, [], [])
  | p :: later =>
      '(conn, n, err) ← rpcclient.Write conn p;
      '(conn, ns, errs) ← writeAll conn later;
      mret (conn, n :: ns, err :: errs)
  end.

(** How [parseMessage] reads a message, by the order of its cases. *)
Inductive FrameKind :=
  | FEmpty
  | FSampleInfo
  | FVerificationProgress
  | FRpc (payload : list byte)
  | FUnknown.

Definition frameKind `{ops : OpCodes} (message : list byte) : FrameKind :=
  match message with
  | [] => FEmpty
  | b :: rest =>
      if decide (string_of_byte b = OpUCanHasSampleInfo) then FSampleInfo
      else if decide (string_of_byte b = OpUCanHasVerificationProgress) then FVerificationProgress
      else if decide (string_of_byte b = OpRPCCall) then FRpc rest
      else FUnknown
  end.

(** Of a run of frames: the RPC payloads, the events and the log lines they
    stand for, each in arrival order. *)
Definition rpcPayloads `{ops : OpCodes} (frames : list (list byte)) : list (list byte) :=
  omap (fun m => match frameKind m with FRpc p => Some p | _ => None end) frames.

Definition firedEvents `{ops : OpCodes} (frames : list (list byte)) : list Event :=
  omap (fun m => match frameKind m with
                 | FSampleInfo => Some EventSampleInfoChange
                 | FVerificationProgress => Some EventVerificationProgressChange
                 | _ => None
                 end) frames.

Definition dropLines `{ops : OpCodes} (frames : list (list byte)) : list LogEntry :=
  omap (fun m => match frameKind m with
                 | FEmpty => Some emptyLine
                 | FUnknown => Some noOpCodeLine
                 | _ => None
                 end) frames.

Definition deliveredAll {O : Type} (payloads : list (list byte))
    (rpcClient : rpcclient.RPCClient O) : rpcclient.RPCClient O :=
  foldl (fun c p => delivered p c) rpcClient payloads.

(** The byte an opcode string of one or two characters stands for, read back
    from its UTF-8 form. *)
Definition byteOfString (s : string) : option byte :=
  match s with
  | String a EmptyString => Byte.of_N (N_of_ascii a)
  | String a (String a' EmptyString) =>
      Byte.of_N ((N_of_ascii a - 192) * 64 + (N_of_ascii a' - 128))
  | _ => None
  end.

Definition hasColon (s : string) : Prop := In ":"%char (list_ascii_of_string s).

(** The subject under which a base notifies its observers. *)
Definition subjectOf (id : string) : string := "/bitboxbases/" +:+ id +:+ "/event".

(** Every notification of the base carries the base's own subject. *)
Definition wellAddressed (f : bitboxbase.Fields) : Prop :=
  Forall (fun n => bitboxbase.Subject n = subjectOf (bitboxbase.bitboxBaseID f))
         (bitboxbase.notified f).

(** What an operation leaves alone: every field but the status and the
    notifications. *)
Definition sameButStatus (f f' : bitboxbase.Fields) : Prop :=
  bitboxbase.bitboxBaseID f' = bitboxbase.bitboxBaseID f
  /\ bitboxbase.registerTime f' = bitboxbase.registerTime f
  /\ bitboxbase.address f' = bitboxbase.address f
  /\ bitboxbase.electrsRPCPort f' = bitboxbase.electrsRPCPort f
  /\ bitboxbase.network f' = bitboxbase.network f
  /\ bitboxbase.bitboxBaseConfigDir f' = bitboxbase.bitboxBaseConfigDir f
  /\ bitboxbase.active f' = bitboxbase.active f
  /\ bitboxbase.unregistered f' = bitboxbase.unregistered f.

Definition disconnectNote (f : bitboxbase.Fields) : bitboxbase.ObservableEvent :=
  bitboxbase.mkObservableEvent (subjectOf (bitboxbase.bitboxBaseID f))
    bitboxbase.Replace EventDisconnect.

(** The three methods of the base that [NewBitBoxBase] hands to the client
    as its callbacks, and one invocation of each on the base's fields. *)
Inductive Callback :=
  | OnChangeStatus (s : Status)
  | OnEvent (ev : Event)
  | OnUnregister.

Definition callback (f : bitboxbase.Fields) (cb : Callback) : bitboxbase.Fields :=
  match cb with
  | OnChangeStatus s => bitboxbase.changeStatus s f
  | OnEvent ev => bitboxbase.fireEvent ev f
  | OnUnregister => (bitboxbase.Deregister f).1
  end.

(** The calls of an operation on a live client: one, unless it is closing. *)
Definition callsOf (op : bitboxbase.Operation) (cl : rpcclient.Client) : list IOEvent :=
  if rpcclient.closing cl then [] else [IORpcCall (methodOf op)].

End coverage.
Import coverage.

(** * Package bitbox02: device and keystore *)

Module bitbox02.

(** Constants of the packages [firmware] and [event], string-typed names
    declared outside the sources at hand. *)
Class Names := mkNames
  { firmware_StatusInitialized : string;
    firmware_EventStatusChanged : string;
    event_EventKeystoreAvailable : string;
    event_EventKeystoreGone : string }.

(** The embedded [firmware.Device], as far as these files ask it: its
    status and what it supports. *)
Record Firmware := mkFirmware
  { Status : string;
    SupportsLTC : bool;
    SupportsETH : string -> bool }.

Definition ProductName : string := "bitbox02".

(** [Device]; [O] is the state of whoever registered [onEvent], which is nil
    until [SetOnEvent]. *)
Record Device (O : Type) := mkDevice
  { firmware : Firmware;
    deviceID : string;
    onEvent : option (string -> O -> O) }.
Arguments mkDevice {O}.
Arguments firmware {O} d.
Arguments deviceID {O} d.
Arguments onEvent {O} d.

Inductive ScriptType :=
  | ScriptTypeP2PKH
  | ScriptTypeP2WPKHP2SH
  | ScriptTypeP2WPKH
  | ScriptTypeOther (name : string).

#[export] Instance ScriptType_eq_dec : EqDecision ScriptType.
Proof. solve_decision. Defined.

(** [signing.Configuration], as far as it is read here. *)
Record Configuration := mkConfiguration
  { Configuration_ScriptType : ScriptType;
    AbsoluteKeypath : list Z }.

(** A [coin.Coin] by its dynamic type: [*btc.Coin] (bitcoin and litecoin),
    [*eth.Coin] with the contract address of its ERC20 token if it has one,
    or any other implementation. *)
Inductive Coin :=
  | BtcCoin (code : string)
  | EthCoin (code : string) (erc20 : option (list byte))
  | OtherCoin (code : string).

Definition Code (coin : Coin) : string :=
  match coin with
  | BtcCoin code | EthCoin code _ | OtherCoin code => code
  end.

(** The [meta interface{}] of [SupportsAccount]: a [signing.ScriptType] or
    anything else, nil included. *)
Inductive Meta :=
  | MetaScriptType (scriptType : ScriptType)
  | MetaOther.

Inductive BTCScriptType :=
  | SCRIPT_UNKNOWN | SCRIPT_P2PKH | SCRIPT_P2WPKH_P2SH | SCRIPT_P2WPKH.

Inductive BTCOutputType := BTC_ADDRESS | BTC_XPUB | BTC_YPUB | BTC_ZPUB | BTC_TPUB.
Inductive ETHOutputType := ETH_ADDRESS | ETH_XPUB.

(** The coin tables of the package and the device's two queries, declared
    outside the sources at hand: a message coin is kept as its number. *)
Class DeviceAPI := mkDeviceAPI
  { btcMsgCoinMap : gmap string Z;
    ethMsgCoinMap : gmap string Z;
    BTCPub : Firmware -> Z -> list Z -> BTCOutputType -> BTCScriptType -> bool
             -> string * option error;
    ETHPub : Firmware -> Z -> list Z -> ETHOutputType -> bool -> list byte
             -> string * option error }.

Record keystore := mkKeystore
  { configuration : Configuration;
    cosignerIndex : Z }.

Section device.
Context {O : Type} `{names : Names}.

Definition NewDevice (deviceID : string) (fw : Firmware) : M (Device O) :=
  _ ← logInfo "Plugged in device";
  mret (mkDevice fw deviceID None).

Definition Identifier (device : Device O) : string := deviceID device.

Definition fireEvent (device : Device O) (event : string) (o : O) : M O :=
  match onEvent device with
  | Some f =>
      _ ← logInfo ("fire event: " +:+ event);
      mret (f event o)
  | None => mret o
  end.

Definition SetOnEvent (device : Device O) (f : option (string -> O -> O)) : Device O :=
  mkDevice (firmware device) (deviceID device) f.

(** The handler [NewDevice] registers with the firmware. *)
Definition onFirmwareEvent (device : Device O) (ev : string) (o : O) : M O :=
  o ← fireEvent device ev o;
  if decide (ev = firmware_EventStatusChanged) then
    if decide (Status (firmware device) = firmware_StatusInitialized) then
      fireEvent device event_EventKeystoreAvailable o
    else mret o
  else mret o.

(** The keystore, nil unless the device is initialized.  The keystore's
    pointer back to the device is the device its methods are given. *)
Definition KeystoreForConfiguration (device : Device O) (configuration : Configuration)
    (cosignerIndex : Z) : option keystore :=
  if decide (Status (firmware device) ≠ firmware_StatusInitialized) then None
  else Some (mkKeystore configuration cosignerIndex).

End device.

Definition CosignerIndex (ks : keystore) : Z := cosignerIndex ks.

Definition SupportsAccount (ks : keystore) (fw : Firmware) (coin : Coin) (multisig : bool)
    (meta : Meta) : Outcome bool :=
  match coin with
  | BtcCoin code =>
      if (String.eqb code "ltc" || String.eqb code "tltc") && negb (SupportsLTC fw)
      then Ret false
      else
        match meta with
        | MetaScriptType scriptType =>
            Ret (negb multisig && negb (bool_decide (scriptType = ScriptTypeP2PKH)))
        | MetaOther => Panic "interface conversion: interface {} is not signing.ScriptType"
        end
  | EthCoin code _ => Ret (SupportsETH fw code)
  | OtherCoin _ => Ret false
  end.

Section keystore.
Context `{api : DeviceAPI}.

Definition CanVerifyAddress (ks : keystore) (configuration : Configuration) (coin : Coin)
  : bool * bool * option error :=
  let optional := false in
  match coin with
  | BtcCoin code => (bool_decide (is_Some (btcMsgCoinMap !! code)), optional, None)
  | EthCoin code _ => (bool_decide (is_Some (ethMsgCoinMap !! code)), optional, None)
  | OtherCoin _ => (false, false, None)
  end.

(** The script type table written out in [VerifyAddress]. *)
Definition msgScriptTypeOf (scriptType : ScriptType) : option BTCScriptType :=
  match scriptType with
  | ScriptTypeP2PKH => Some SCRIPT_P2PKH
  | ScriptTypeP2WPKHP2SH => Some SCRIPT_P2WPKH_P2SH
  | ScriptTypeP2WPKH => Some SCRIPT_P2WPKH
  | ScriptTypeOther _ => None
  end.

Definition VerifyAddress (ks : keystore) (fw : Firmware) (configuration : Configuration)
    (coin : Coin) : Outcome (option error) :=
  let '(canVerifyAddress, _, err) := CanVerifyAddress ks configuration coin in
  match err with
  | Some e => Ret (Some e)
  | None =>
      if negb canVerifyAddress then Panic "CanVerifyAddress must be true"
      else
        match coin with
        | BtcCoin code =>
            match msgScriptTypeOf (Configuration_ScriptType configuration) with
            | None => Panic "unsupported script type"
            | Some msgScriptType =>
                let '(_, err) :=
                  BTCPub fw (default 0%Z (btcMsgCoinMap !! code))
                    (AbsoluteKeypath configuration) BTC_ADDRESS msgScriptType true in
                Ret err
            end
        | EthCoin code erc20 =>
            match ethMsgCoinMap !! code with
            | None => Ret (Some (ErrNew "unsupported coin"))
            | Some msgCoin =>
                let contractAddress := match erc20 with Some a => a | None => [] end in
                let '(_, err') :=
                  ETHPub fw msgCoin (AbsoluteKeypath configuration) ETH_ADDRESS true
                    contractAddress in
                match err' with
                | Some e => Ret (Some e)
                | None => Ret err
                end
            end
        | OtherCoin _ => Ret (Some (ErrNew "unsupported coin"))
        end
  end.

Definition CanVerifyExtendedPublicKey (ks : keystore) : bool := true.

End keystore.

(** A btc-typed coin whose litecoin code the device does not support. *)
Definition litecoinBlocked (fw : Firmware) (code : string) : Prop :=
  (code = "ltc" \/ code = "tltc") /\ SupportsLTC fw = false.

Definition unsupportedCoin : error := ErrNew "unsupported coin".

End bitbox02.

(** * Further sample inputs *)

Module inputs.

Definition names : bitbox02.Names :=
  bitbox02.mkNames "initialized" "statusChanged" "keystoreAvailable" "keystoreGone".

(** A device that is initialized and supports neither litecoin nor any
    ethereum coin. *)
Definition btcOnlyFirmware : bitbox02.Firmware :=
  bitbox02.mkFirmware "initialized" false (fun _ => false).

(** Tables knowing "btc" and "eth"; a device whose address queries fail. *)
Definition failingAPI : bitbox02.DeviceAPI :=
  bitbox02.mkDeviceAPI {[ "btc" := 1%Z ]} {[ "eth" := 1%Z ]}
    (fun _ _ _ _ _ _ => ("", Some (ErrExternal "aborted by the user")))
    (fun _ _ _ _ _ _ => ("", Some (ErrExternal "aborted by the user"))).

Definition segwitConfiguration : bitbox02.Configuration :=
  bitbox02.mkConfiguration bitbox02.ScriptTypeP2WPKH [84; 0; 0]%Z.

Definition someKeystore : bitbox02.keystore :=
  bitbox02.mkKeystore segwitConfiguration 0.

End inputs.

(** * Properties *)

(** Unfolds the monad's plumbing so that a computation reduces. *)
Ltac unfold_M :=
  unfold mbind, mret, M_bind, M_ret, panic, logInfo, logError, logErrorWith, emit,
    rpcclient.liftOutcome, bitboxbase.deref in *.

(** ** The transport: [rpcConn] *)

Section rpcConn_facts.
Import rpcclient.

Lemma copy_length {A} (dst src : list A) :
  length (copy dst src).2 = length dst.
Proof.
  unfold copy; simpl.
  rewrite length_app, length_take, length_drop. lia.
Qed.

Lemma Close_returns_nil (conn conn1 : rpcConn) (e1 : option error) (w w1 : World) :
  Close conn w = Ret (conn1, e1, w1) -> e1 = None /\ closeChan conn1 = None.
Proof.
  unfold Close, close. destruct (closeChan conn) as [ch|] eqn:Hc.
  - unfold_M. destruct (closed ch); [discriminate|].
    intros [= <- <- <-]. done.
  - unfold_M. intros [= <- <- <-]. done.
Qed.

Lemma Close_closed_is_noop (conn : rpcConn) (w : World) :
  closeChan conn = None -> Close conn w = Ret (conn, None, w).
Proof. unfold Close. intros ->. reflexivity. Qed.

End rpcConn_facts.

(** C10. [rpcConn.Read] never reports an error.  For a buffer [p] and the
    message at the head of the read channel it returns
    [min (len p) (len message)] as the count and nil as the error; the buffer
    holds that many leading bytes of the message, followed by its own old
    tail; the channel goes on with the next message, so the bytes of the
    message beyond the buffer are kept nowhere.  Whatever the channel holds,
    a [Read] that returns does so with a nil error. *)
Theorem Read_copies_min_and_discards_excess
    (p message : list byte) (rest : list (list byte)) (isClosed : bool)
    (wr : Chan (list byte)) (cl : option (Chan unit)) (conn : rpcclient.rpcConn) :
  let n := Nat.min (length p) (length message) in
  rpcclient.Read (rpcclient.mkRpcConn (mkChan (message :: rest) isClosed) wr cl) p
    = Some (rpcclient.mkRpcConn (mkChan rest isClosed) wr cl,
            take n message ++ drop n p, n, None)
  /\ length (take n message ++ drop n p) = length p
  /\ match rpcclient.Read conn p with
     | Some (_, _, _, err) => err = None
     | None => True
     end.
Proof.
  intros n. split; [reflexivity|]. split.
  - apply (copy_length p message).
  - unfold rpcclient.Read.
    destruct (rpcclient.receive (rpcclient.readChan conn)) as [[m ch]|]; [|done].
    by destruct (copy p m).
Qed.

(** C5. Closing is idempotent.  Once [rpcConn.Close] has returned, a second
    [Close] returns nil, does not panic, and leaves the connection and the
    world as they are: the close channel is not closed again.  Once
    [RPCClient.Stop] has returned, a second [Stop] returns as well, leaves
    the client as it is and performs no I/O: net/rpc answers the second close
    with its shutdown error, which [Stop] only logs. *)
Theorem closing_twice_is_a_noop {O : Type}
    (conn conn1 : rpcclient.rpcConn) (e1 : option error) (w w1 : World)
    (rpcClient rpcClient1 : rpcclient.RPCClient O) (v v1 : World) :
  rpcclient.Close conn w = Ret (conn1, e1, w1) ->
  rpcclient.Stop rpcClient v = Ret (rpcClient1, v1) ->
  (e1 = None /\ rpcclient.Close conn1 w1 = Ret (conn1, None, w1))
  /\ rpcclient.Stop rpcClient1 v1
     = Ret (rpcClient1,
            mkWorld (log v1 ++ [mkLog LError "failed to close rpc client" (Some ErrShutdown)])
                    (io v1)).
Proof.
  intros Hclose Hstop. split.
  - destruct (Close_returns_nil _ _ _ _ _ Hclose) as [-> Hnil].
    split; [done|]. by apply Close_closed_is_noop.
  - revert Hstop. unfold rpcclient.Stop.
    destruct (rpcclient.client rpcClient) as [cl|] eqn:Hcl; [|discriminate].
    unfold rpcclient.Client_Close.
    destruct (rpcclient.closing cl) eqn:Hclosing.
    + unfold_M. intros [= <- <-]. simpl. rewrite Hclosing. reflexivity.
    + unfold_M.
      destruct (rpcclient.Close (rpcclient.rpcConnection rpcClient) v)
        as [?|[[conn' err] v']] eqn:Hc; [discriminate|].
      destruct (Close_returns_nil _ _ _ _ _ Hc) as [-> _].
      intros [= <- <-]. reflexivity.
Qed.

Lemma closing_twice_is_a_noop_witness :
  let conn1 := rpcclient.set_closeChan None rpcclient.newRPCConn in
  let w1 := mkWorld [] [IOCloseChan] in
  let c1 := rpcclient.set_client (Some (rpcclient.mkClient true))
              (rpcclient.set_rpcConnection conn1 demoClient) in
  rpcclient.Close rpcclient.newRPCConn emptyWorld = Ret (conn1, None, w1)
  /\ rpcclient.Stop demoClient emptyWorld = Ret (c1, w1)
  /\ rpcclient.Close conn1 w1 = Ret (conn1, None, w1)
  /\ io (mkWorld (log w1 ++ [mkLog LError "failed to close rpc client" (Some ErrShutdown)])
           (io w1)) = [IOCloseChan].
Proof.
  intros conn1 w1 c1.
  assert (H1 : rpcclient.Close rpcclient.newRPCConn emptyWorld = Ret (conn1, None, w1))
    by reflexivity.
  assert (H2 : rpcclient.Stop demoClient emptyWorld = Ret (c1, w1)) by reflexivity.
  pose proof (closing_twice_is_a_noop _ _ _ _ _ _ _ _ _ H1 H2) as [[_ H3] _].
  repeat split; assumption || reflexivity.
Defined.

(** ** Liveness probe and connection setup *)

Section connect_facts.
Context {O : Type} `{net : Network} `{pkg : rpcclient.Package O}.
Import rpcclient.

Lemma Ping_non200 (c : RPCClient O) (w : World) (code : Z) :
  httpGet (probeURL (address c)) = HttpResponse code -> code <> StatusOK ->
  Ping c w = Ret (false, None,
                  mkWorld (log w ++ [non200Line]) (io w ++ [IOHttpGet (probeURL (address c))])).
Proof.
  intros Hget Hcode. unfold Ping. fold (probeURL (address c)).
  unfold_M. simpl. rewrite Hget.
  destruct (decide (code ≠ StatusOK)); [reflexivity|contradiction].
Qed.

Lemma Ping_200 (c : RPCClient O) (w : World) :
  httpGet (probeURL (address c)) = HttpResponse StatusOK ->
  Ping c w = Ret (true, None, mkWorld (log w) (io w ++ [IOHttpGet (probeURL (address c))])).
Proof.
  intros Hget. unfold Ping. fold (probeURL (address c)).
  unfold_M. simpl. rewrite Hget.
  destruct (decide (StatusOK ≠ StatusOK)); [contradiction|reflexivity].
Qed.

Lemma Ping_fail (c : RPCClient O) (w : World) (e : error) :
  httpGet (probeURL (address c)) = HttpFail e ->
  Ping c w = Ret (false, Some e,
                  mkWorld (log w ++ [mkLog LError "No response from middleware" (Some e)])
                          (io w ++ [IOHttpGet (probeURL (address c))])).
Proof.
  intros Hget. unfold Ping. fold (probeURL (address c)).
  unfold_M. simpl. rewrite Hget. reflexivity.
Qed.

(** C8. When the probe's response carries a status other than 200, [Ping]
    returns false with a nil error, and [NewRPCClient] therefore returns a
    nil client with a nil error. *)
Theorem non200_probe_gives_nil_client_and_nil_error
    (addr dir : string) (onChangeStatus : Status -> O -> O) (onEvent : Event -> O -> O)
    (onUnregister : O -> O * option error) (c : RPCClient O) (w : World) (code : Z) :
  address c = addr ->
  httpGet (probeURL addr) = HttpResponse code ->
  code <> StatusOK ->
  let w' := mkWorld (log w ++ [non200Line]) (io w ++ [IOHttpGet (probeURL addr)]) in
  Ping c w = Ret (false, None, w')
  /\ NewRPCClient addr dir onChangeStatus onEvent onUnregister w = Ret (None, None, w').
Proof.
  intros <- Hget Hcode w'. split.
  - by apply Ping_non200 with (code := code).
  - unfold NewRPCClient.
    unfold mbind at 1. unfold M_bind.
    rewrite (Ping_non200 _ w code); [reflexivity|exact Hget|exact Hcode].
Qed.

(** C6. [Connect] probes, then dials, then runs the noise handshake, then
    creates the RPC client and starts the websocket loops: the I/O it adds
    to the world is a prefix of that sequence, cut right after the first step
    that did not succeed: after the probe when the GET failed or answered
    another status than 200, after the dial when the dial failed, after the
    handshake when the handshake returned an error.  It runs to the end
    otherwise, and panics only where the handshake or the loop start do. *)
Theorem Connect_steps_in_order (c : RPCClient O) (o : O) (w : World) :
  match Connect c o w with
  | Ret (c', o', err, w') =>
      exists n : nat,
        io w' = io w ++ take n (connectSteps (address c)) /\
        match httpGet (probeURL (address c)) with
        | HttpFail e => n = 1 /\ err = Some e
        | HttpResponse code =>
            if decide (code = StatusOK) then
              match websocketDial (dialURL (address c)) with
              | DialFail _ => n = 2 /\ err <> None
              | DialOk ws =>
                  match initializeNoise ws c o with
                  | Ret (_, _, Some e) => n = 3 /\ err = Some e
                  | Ret (_, _, None) => n = 5 /\ err = None
                  | Panic _ => False
                  end
              end
            else n = 1 /\ err = None
        end
  | Panic _ =>
      exists ws,
        httpGet (probeURL (address c)) = HttpResponse StatusOK /\
        websocketDial (dialURL (address c)) = DialOk ws /\
        (isPanic (initializeNoise ws c o) \/
         exists c1 o1, initializeNoise ws c o = Ret (c1, o1, None) /\
           isPanic (runWebsocket ws (WriteChan (rpcConnection (set_client (Some NewClient) c1)))
                      (set_client (Some NewClient) c1) o1))
  end.
Proof.
  unfold Connect. fold (dialURL (address c)).
  unfold mbind at 1. unfold M_bind at 1. unfold logInfo.
  unfold mbind at 1. unfold M_bind at 1.
  destruct (httpGet (probeURL (address c))) as [e|code] eqn:Hget.
  - rewrite (Ping_fail _ _ e Hget). simpl.
    exists 1. split; [reflexivity|done].
  - destruct (decide (code = StatusOK)) as [->|Hne].
    + rewrite (Ping_200 _ _ Hget). cbn [negb].
      unfold_M. cbn [io log].
      destruct (websocketDial (dialURL (address c))) as [de|ws] eqn:Hdial.
      * exists 2. split; [by rewrite <- app_assoc|done].
      * destruct (initializeNoise ws c o) as [r|[[c1 o1] [e|]]] eqn:Hnoise.
        -- exists ws. do 2 (split; [done|]). left. rewrite Hnoise. exact I.
        -- exists 3. cbn [io log]. split; [by rewrite <- !app_assoc|done].
        -- cbn [io log].
           destruct (runWebsocket ws _ (set_client (Some NewClient) c1) o1)
             as [r|[c2 o2]] eqn:Hrun.
           ++ exists ws. do 2 (split; [done|]). right.
              exists c1, o1. split; [done|]. rewrite Hrun. exact I.
           ++ exists 5. cbn [io log]. split; [by rewrite <- !app_assoc|done].
    + rewrite (Ping_non200 _ _ code Hget Hne). simpl.
      exists 1. split; [reflexivity|done].
Qed.

End connect_facts.

Lemma non200_probe_gives_nil_client_and_nil_error_witness :
  let w' := mkWorld [non200Line] [IOHttpGet "http://192.168.1.10:8845/"] in
  rpcclient.Ping (net := netStatus 503) demoClient emptyWorld = Ret (false, None, w')
  /\ rpcclient.NewRPCClient (net := netStatus 503) "192.168.1.10:8845" "/config"
       (fun _ (o : unit) => o) (fun _ o => o) (fun o => (o, None)) emptyWorld
     = Ret (None, None, w').
Proof.
  apply (non200_probe_gives_nil_client_and_nil_error (net := netStatus 503)
           "192.168.1.10:8845" "/config" _ _ _ demoClient emptyWorld 503);
    [reflexivity | reflexivity | unfold StatusOK; lia].
Defined.

(** C2, at a probe answered with status 503: [Connect] stops after the probe,
    without dialling, and hands its caller a nil error. *)
Example Connect_after_status_503_returns_nil_error :
  @rpcclient.Connect unit (netStatus 503) (pkgQuiet unit) newClient tt emptyWorld
  = Ret (newClient, tt, None,
         mkWorld [mkLog LInfo "connecting to base websocket" None; non200Line]
                 [IOHttpGet "http://192.168.1.10:8845/"]).
Proof. reflexivity. Qed.

(** The caller of [Connect] takes the nil error for a connection: on the
    same probe [ConnectRPCClient] goes on to [GetEnv], which calls through
    the net/rpc client that was never created. *)
Example ConnectRPCClient_after_status_503_panics :
  @bitboxbase.ConnectRPCClient (netStatus 503) (pkgQuiet _) registeredBase emptyWorld
  = Panic "invalid memory address or nil pointer dereference".
Proof. reflexivity. Qed.

(** An appliance that does not answer: the GET's error reaches the caller. *)
Example Connect_unreachable_returns_the_error :
  @rpcclient.Connect unit netDown (pkgQuiet unit) newClient tt emptyWorld
  = Ret (newClient, tt, Some (ErrExternal "connection refused"),
         mkWorld [mkLog LInfo "connecting to base websocket" None;
                  mkLog LError "No response from middleware"
                    (Some (ErrExternal "connection refused"))]
                 [IOHttpGet "http://192.168.1.10:8845/"]).
Proof. reflexivity. Qed.

(** A reachable appliance and a handshake that succeeds: all five steps. *)
Example Connect_reachable_runs_to_the_end :
  @rpcclient.Connect unit (netStatus 200) (pkgQuiet unit) newClient tt emptyWorld
  = Ret (demoClient, tt, None,
         mkWorld [mkLog LInfo "connecting to base websocket" None]
                 (connectSteps "192.168.1.10:8845")).
Proof. reflexivity. Qed.

(** [NewBitBoxBase] keeps the host part of the address for itself and hands
    the whole address to the client. *)
Example NewBitBoxBase_reachable :
  @bitboxbase.NewBitBoxBase (netStatus 200) "192.168.1.10:8845" "base-1" "/config" 0 emptyWorld
  = Ret (registeredBase, None, mkWorld [] [IOHttpGet "http://192.168.1.10:8845/"]).
Proof. reflexivity. Qed.

(** ** Opcode dispatch *)

(** [string(b)] is one byte long below 0x80 and two bytes long from there. *)
Example string_of_byte_ascii : string_of_byte "r"%byte = "r".
Proof. reflexivity. Qed.

Example string_of_byte_high :
  string_of_byte xe9%byte = String "195"%char (String "169"%char EmptyString).
Proof. reflexivity. Qed.

Section parseMessage_facts.
Context {O : Type} `{ops : OpCodes}.
Import rpcclient.

Lemma parseMessage_cons (c : RPCClient O) (o : O) (b : byte) (rest : list byte) (w : World) :
  readOpen c ->
  parseMessage c o (b :: rest) w =
    if decide (string_of_byte b = OpUCanHasSampleInfo) then
      Ret (c, onEvent c EventSampleInfoChange o, w)
    else if decide (string_of_byte b = OpUCanHasVerificationProgress) then
      Ret (c, onEvent c EventVerificationProgressChange o, w)
    else if decide (string_of_byte b = OpRPCCall) then
      Ret (delivered rest c, o, w)
    else Ret (c, o, mkWorld (log w ++ [noOpCodeLine]) (io w)).
Proof.
  intros Hopen. unfold parseMessage, readOpen in *.
  destruct (decide (length (b :: rest) = 0)) as [Hlen|_]; [discriminate Hlen|].
  unfold index, sliceFrom, send, ReadChan. cbn [lookup list_lookup].
  unfold_M. simpl.
  repeat case_decide; try reflexivity.
  rewrite Hopen. unfold delivered. by rewrite drop_0.
Qed.

(** C3. A non-empty message is classified by its first byte [b], read as the
    string [string(b)]: on the sample-info opcode the sample-info event is
    fired, on the verification-progress opcode the verification-progress
    event, on the RPC opcode the message without its first byte is handed to
    the RPC read channel; on any other first byte a line is logged, client,
    connection and observer stay as they were, and the frames that follow are
    processed exactly as if the unknown frame had not arrived. *)
Theorem parseMessage_dispatches_on_first_byte
    (c : RPCClient O) (o : O) (b : byte) (rest : list byte) (w : World) :
  OpUCanHasSampleInfo <> OpUCanHasVerificationProgress ->
  OpUCanHasSampleInfo <> OpRPCCall ->
  OpUCanHasVerificationProgress <> OpRPCCall ->
  readOpen c ->
  let opCode := string_of_byte b in
  (opCode = OpUCanHasSampleInfo ->
     parseMessage c o (b :: rest) w = Ret (c, onEvent c EventSampleInfoChange o, w))
  /\ (opCode = OpUCanHasVerificationProgress ->
     parseMessage c o (b :: rest) w = Ret (c, onEvent c EventVerificationProgressChange o, w))
  /\ (opCode = OpRPCCall ->
     parseMessage c o (b :: rest) w = Ret (delivered rest c, o, w))
  /\ (opCode <> OpUCanHasSampleInfo -> opCode <> OpUCanHasVerificationProgress ->
      opCode <> OpRPCCall ->
      let w' := mkWorld (log w ++ [noOpCodeLine]) (io w) in
      parseMessage c o (b :: rest) w = Ret (c, o, w')
      /\ forall later, parseMessages c o ((b :: rest) :: later) w = parseMessages c o later w').
Proof.
  intros Hsv Hsr Hvr Hopen opCode. subst opCode.
  pose proof (parseMessage_cons c o b rest w Hopen) as E.
  repeat split.
  - intros Heq. rewrite E. by rewrite decide_True.
  - intros Heq. rewrite E.
    rewrite decide_False by congruence. by rewrite decide_True.
  - intros Heq. rewrite E.
    rewrite !decide_False by congruence. by rewrite decide_True.
  - rewrite E. by rewrite !decide_False.
  - intros later. cbn [parseMessages].
    unfold mbind at 1. unfold M_bind. rewrite E.
    by rewrite !decide_False.
Qed.

(** C9. [parseMessage] returns on every byte sequence: neither the read of
    the first byte nor the slice from index 1 leaves the message.  The empty
    message is logged and dropped: no event is fired, nothing reaches the
    read channel, no I/O happens.  The read channel is still open afterwards,
    so the same holds for the next message. *)
Theorem parseMessage_never_panics
    (c : RPCClient O) (o : O) (message : list byte) (w : World) :
  readOpen c ->
  exists c' o' w',
    parseMessage c o message w = Ret (c', o', w')
    /\ readOpen c'
    /\ (message = [] -> c' = c /\ o' = o /\ w' = mkWorld (log w ++ [emptyLine]) (io w)).
Proof.
  intros Hopen. destruct message as [|b rest].
  - exists c, o, (mkWorld (log w ++ [emptyLine]) (io w)). done.
  - rewrite (parseMessage_cons c o b rest w Hopen).
    repeat case_decide; eexists _, _, _; (split; [reflexivity|]); (split; [|done]);
      try exact Hopen.
    reflexivity.
Qed.

End parseMessage_facts.

(** ** The facade *)

Section facade_facts.
Context `{net : Network}.
Import rpcclient bitboxbase.

Lemma Client_Call_live (k : ReplyKind) (cl : Client) (m : string) (a : RpcArgs)
    (r : replyType k) (w : World) :
  Client_Call k (Some cl) m a r w = Ret (answer k cl m a r, callWorld cl m w).
Proof.
  unfold Client_Call, answer, callWorld. destruct (closing cl); reflexivity.
Qed.

(** C7. [BitBoxBase.GetHostname] returns a nil error exactly when the base is
    active, the remote call comes back without error and the reply's
    [ErrorResponse] reports success, and then the hostname is the reply's; in
    every other case it returns the empty string and a non-nil error.  It
    panics only on an active base that holds no client to call through. *)
Theorem GetHostname_nil_error_iff_all_succeed (base : BitBoxBase) (w : World) :
  match GetHostname base w with
  | Ret (hostname, err, w') =>
      (err = None <->
         active (fields base) = true /\
         exists reply, hostnameAnswer base = Some (reply, None) /\
                       rpcmessages.Success (rpcmessages.ErrorResponse_of reply) = true)
      /\ (err = None ->
          exists reply, hostnameAnswer base = Some (reply, None) /\
                        hostname = rpcmessages.Hostname reply)
      /\ (err <> None -> hostname = "")
  | Panic _ => active (fields base) = true /\ hostnameAnswer base = None
  end.
Proof.
  unfold GetHostname, hostnameAnswer.
  destruct (active (fields base)) eqn:Hact; cbn [negb].
  2:{ unfold_M. repeat split; try done. intros [? _]; done. }
  unfold mbind at 1. unfold M_bind at 1. unfold logInfo.
  destruct (rpcClient base) as [c|]; [|done].
  unfold deref. unfold mbind at 1. unfold M_bind at 1. unfold mret at 1. unfold M_ret at 1.
  unfold rpcclient.GetHostname.
  destruct (client c) as [cl|]; [|done].
  unfold mbind, M_bind, logInfo. rewrite Client_Call_live.
  destruct (answer KGetHostname cl "RPCServer.GetHostname" (ArgDummy true)
              rpcmessages.GetHostnameResponse_zero) as [reply [e|]] eqn:Hans.
  - unfold_M. repeat split; try done. intros (_ & r & [= _ ?] & _); done.
  - unfold_M.
    destruct (rpcmessages.Success (rpcmessages.ErrorResponse_of reply)) eqn:Hs; cbn [negb].
    + repeat split; try done.
      * exists reply. done.
      * intros _. exists reply. done.
    + repeat split; try done.
      intros (_ & r & [= <-] & Hr). congruence.
Qed.

(** C4, as amended.  When the remote call of an operation on an active base
    fails, in transit or by a reply reporting no success, the operation
    returns that error, bare or under a stack-trace wrapper, to its caller.
    Every operation but ReindexBitcoin and ResyncBitcoin leaves the base, its
    status included, as it was; ReindexBitcoin and ResyncBitcoin have by then
    set the status to StatusInitialized and notified the status change. *)
Theorem failed_call_returns_error_and_status (op : Operation) (f : Fields)
    (c : rpcclient.RPCClient Fields) (cl : Client) (w : World) (e : error) :
  active f = true ->
  client c = Some cl ->
  remoteFailure op cl = Some e ->
  exists e' w',
    perform op (mkBitBoxBase f (Some c)) w
      = Ret (mkBitBoxBase (if changesStatus op then changeStatus StatusInitialized f else f)
               (Some c),
             Some e', w')
    /\ (e' = e \/ e' = ErrWithStack e)
    /\ status (if changesStatus op then changeStatus StatusInitialized f else f)
       = (if changesStatus op then StatusInitialized else status f).
Proof.
  intros Hact Hcl Hfail.
  unfold remoteFailure in Hfail.
  destruct (answer (kindOf op) cl (methodOf op) (argsOf op) (zeroOf (kindOf op)))
    as [reply err] eqn:Hans.
  destruct op; cbn [kindOf methodOf argsOf zeroOf errorResponseOf changesStatus] in *;
    unfold perform, MiddlewareInfo, VerificationProgress, ReindexBitcoin, ResyncBitcoin,
      GetHostname, SetHostname, UserAuthenticate, UserChangePassword, MountFlashdrive,
      UnmountFlashdrive, BackupSysconfig, BackupHSMSecret, RestoreSysconfig,
      RestoreHSMSecret, forward, rpcclient.GetSampleInfo, rpcclient.GetVerificationProgress,
      rpcclient.ReindexBitcoin, rpcclient.ResyncBitcoin, rpcclient.GetHostname,
      rpcclient.SetHostname, rpcclient.UserAuthenticate, rpcclient.UserChangePassword,
      rpcclient.MountFlashdrive, rpcclient.UnmountFlashdrive, rpcclient.BackupSysconfig,
      rpcclient.BackupHSMSecret, rpcclient.RestoreSysconfig, rpcclient.RestoreHSMSecret,
      errorResponseCall, deref;
    cbn [fields rpcClient]; rewrite Hact; cbn [negb];
    unfold mbind, M_bind, mret, M_ret, logInfo, logErrorWith;
    cbn beta iota; rewrite Hcl, Client_Call_live;
    cbv [String.append]; rewrite Hans;
    destruct err as [ce|]; simplify_eq; cbn beta iota;
    try (destruct (rpcmessages.Success _) eqn:Hs; rewrite ?Hs in Hfail;
         simplify_eq; cbn [negb]);
    eexists _, _; (split; [reflexivity|]); split; auto.
Qed.

End facade_facts.

Lemma failed_call_returns_error_and_status_witness :
  exists e' w',
    bitboxbase.perform (net := netCallsFail) (bitboxbase.OpSetHostname "node") activeBase emptyWorld
      = Ret (activeBase, Some e', w')
    /\ (e' = ErrExternal "unexpected EOF" \/ e' = ErrWithStack (ErrExternal "unexpected EOF"))
    /\ bitboxbase.status activeFields = StatusConnected.
Proof.
  exact (failed_call_returns_error_and_status (net := netCallsFail)
           (bitboxbase.OpSetHostname "node") activeFields baseClient rpcclient.NewClient
           emptyWorld (ErrExternal "unexpected EOF") eq_refl eq_refl eq_refl).
Defined.

(** C4, as it stands, fails: on an active base in status StatusConnected
    whose ReindexBitcoin call fails in transit, the operation returns the
    error and the status is StatusInitialized afterwards. *)
Lemma ReindexBitcoin_failure_changes_status :
  bitboxbase.perform (net := netCallsFail) bitboxbase.OpReindexBitcoin activeBase emptyWorld
    = Ret (bitboxbase.mkBitBoxBase
             (bitboxbase.changeStatus StatusInitialized activeFields) (Some baseClient),
           Some (ErrWithStack (ErrExternal "unexpected EOF")),
           mkWorld [mkLog LInfo "bitboxbase is making a ReindexBitcoin call" None;
                    mkLog LInfo "Executing ReindexBitcoin rpc call" None]
                   [IORpcCall "RPCServer.ReindexBitcoin"])
  /\ bitboxbase.Status_of activeBase = StatusConnected
  /\ bitboxbase.status (bitboxbase.changeStatus StatusInitialized activeFields)
     = StatusInitialized
  /\ ~ failureKeepsStatus bitboxbase.OpReindexBitcoin.
Proof.
  repeat split.
  intros Hkeep.
  destruct (Hkeep netCallsFail activeFields baseClient rpcclient.NewClient emptyWorld
              (ErrExternal "unexpected EOF") eq_refl eq_refl eq_refl)
    as (base' & e' & w' & Hrun & Hstatus).
  vm_compute in Hrun. injection Hrun as <- _ _.
  discriminate Hstatus.
Qed.

Lemma parseMessage_dispatches_on_first_byte_witness :
  rpcclient.parseMessage (ops := opCodes) demoClient tt ["r"%byte; x01%byte; x02%byte] emptyWorld
    = Ret (delivered [x01%byte; x02%byte] demoClient, tt, emptyWorld)
  /\ rpcclient.parseMessage (ops := opCodes) demoClient tt ["d"%byte] emptyWorld
    = Ret (demoClient, tt, emptyWorld)
  /\ rpcclient.parseMessage (ops := opCodes) demoClient tt [xff%byte; x00%byte] emptyWorld
    = Ret (demoClient, tt, mkWorld [noOpCodeLine] []).
Proof.
  assert (Hsv : @OpUCanHasSampleInfo opCodes <> @OpUCanHasVerificationProgress opCodes)
    by discriminate.
  assert (Hsr : @OpUCanHasSampleInfo opCodes <> @OpRPCCall opCodes) by discriminate.
  assert (Hvr : @OpUCanHasVerificationProgress opCodes <> @OpRPCCall opCodes) by discriminate.
  assert (Hopen : readOpen demoClient) by reflexivity.
  split; [|split].
  - destruct (parseMessage_dispatches_on_first_byte (ops := opCodes) demoClient tt
                "r"%byte [x01%byte; x02%byte] emptyWorld Hsv Hsr Hvr Hopen)
      as (_ & _ & Hrpc & _).
    apply Hrpc. reflexivity.
  - destruct (parseMessage_dispatches_on_first_byte (ops := opCodes) demoClient tt
                "d"%byte [] emptyWorld Hsv Hsr Hvr Hopen)
      as (Hsample & _).
    apply Hsample. reflexivity.
  - destruct (parseMessage_dispatches_on_first_byte (ops := opCodes) demoClient tt
                xff%byte [x00%byte] emptyWorld Hsv Hsr Hvr Hopen)
      as (_ & _ & _ & Hother).
    apply Hother; discriminate.
Defined.

Lemma parseMessage_never_panics_witness :
  exists c' o' w',
    rpcclient.parseMessage (ops := opCodes) demoClient tt [] emptyWorld = Ret (c', o', w')
    /\ readOpen c'
    /\ ([] = @nil byte -> c' = demoClient /\ o' = tt /\ w' = mkWorld [emptyLine] []).
Proof.
  apply (parseMessage_never_panics (ops := opCodes) demoClient tt [] emptyWorld).
  reflexivity.
Defined.

(** ** Pinning *)

Section pairing_facts.
Import pairing.

Lemma step_keeps_peer (c : Connection) (i : Input) : peer (step c i) = peer c.
Proof.
  unfold step.
  destruct (state c), i; try reflexivity;
    repeat (case_match; try reflexivity).
Qed.

Lemma step_keeps_pin (c : Connection) (i : Input) (pinned : PubKey) :
  i <> RePair ->
  Lookup (peer c) (store c) = Some pinned ->
  Lookup (peer c) (store (step c i)) = Some pinned.
Proof.
  intros Hi Hpin. unfold step.
  destruct (state c), i; try done; cbn [store allowsCalls]; try done.
  rewrite Hpin. by case_decide.
Qed.

Lemma run_keeps_pin (inputs : list Input) (c : Connection) (pinned : PubKey) :
  RePair ∉ inputs ->
  Lookup (peer c) (store c) = Some pinned ->
  Lookup (peer c) (store (run c inputs)) = Some pinned
  /\ peer (run c inputs) = peer c.
Proof.
  revert c. induction inputs as [|i inputs IH]; intros c Hno Hpin; [done|].
  apply not_elem_of_cons in Hno as [Hi Hno].
  cbn [run fold_left]. fold (run (step c i) inputs).
  destruct (IH (step c i) Hno) as [Hl Hp].
  - rewrite step_keeps_peer. by apply step_keeps_pin.
  - rewrite step_keeps_peer in Hl, Hp. done.
Qed.

Lemma closed_absorbs (inputs : list Input) (c : Connection) :
  RePair ∉ inputs -> state c = Closed -> run c inputs = c.
Proof.
  revert c. induction inputs as [|i inputs IH]; intros c Hno Hc; [done|].
  apply not_elem_of_cons in Hno as [Hi Hno].
  cbn [run fold_left]. fold (run (step c i) inputs).
  assert (Hstep : step c i = c).
  { unfold step. rewrite Hc. by destruct i. }
  rewrite Hstep. by apply IH.
Qed.

Lemma frames_wait_for_handshake (payloads : list (list byte)) (c : Connection) :
  state c = Connecting -> run c (Frame <$> payloads) = c.
Proof.
  intros Hc. induction payloads as [|p payloads IH]; [done|].
  cbn [fmap list_fmap run fold_left].
  assert (Hstep : step c (Frame p) = c) by (unfold step; by rewrite Hc).
  rewrite Hstep. exact IH.
Qed.

(** C1. For a remote identity with a pinned key, a handshake presenting a
    different static key is rejected: the connection is closed with the
    pin-mismatch error, whatever frames arrived before the handshake ended
    and whatever arrives afterwards no RPC payload is ever processed on it,
    and the pin is left as it was.  More generally no run of inputs without
    an explicit re-pair changes the key pinned for the identity. *)
Theorem pinned_key_mismatch_is_rejected
    (pins : Store) (identity : RemoteIdentity) (pinned presented : PubKey)
    (early : list (list byte)) (later : list Input) :
  Lookup identity pins = Some pinned ->
  presented <> pinned ->
  RePair ∉ later ->
  let rejected :=
    run (fresh pins identity) (Dial :: (Frame <$> early) ++ [HandshakeDone presented]) in
  rejected = mkConnection pins identity Closed [] [PinMismatch]
  /\ run rejected later = rejected
  /\ forall c : Connection,
       Lookup (peer c) (store c) = Some pinned ->
       Lookup (peer c) (store (run c later)) = Some pinned.
Proof.
  intros Hpin Hne Hno rejected.
  assert (Hrej : rejected = mkConnection pins identity Closed [] [PinMismatch]).
  { subst rejected. unfold run. cbn [fold_left]. rewrite fold_left_app.
    change (step (fresh pins identity) Dial)
      with (mkConnection pins identity Connecting [] []).
    fold (run (mkConnection pins identity Connecting [] []) (Frame <$> early)).
    rewrite frames_wait_for_handshake by reflexivity.
    cbn [fold_left]. unfold step. cbn [state peer store processed raised].
    rewrite Hpin. by rewrite decide_False. }
  split; [exact Hrej|]. split.
  - apply closed_absorbs; [exact Hno|]. by rewrite Hrej.
  - intros c Hc. by apply run_keeps_pin.
Qed.

End pairing_facts.

Lemma pinned_key_mismatch_is_rejected_witness :
  let identity := pairing.mkRemoteIdentity "192.168.1.10:8845" "base-1" in
  let K1 := [x01%byte; x02%byte] in
  let K2 := [x01%byte; x03%byte] in
  let pins : pairing.Store := pairing.Pin identity K1 ∅ in
  let rejected :=
    pairing.run (pairing.fresh pins identity)
      [pairing.Dial; pairing.Frame [x72%byte]; pairing.HandshakeDone K2] in
  rejected = pairing.mkConnection pins identity pairing.Closed [] [pairing.PinMismatch]
  /\ pairing.run rejected [pairing.Frame [x72%byte]; pairing.HandshakeDone K2] = rejected
  /\ pairing.Lookup identity (pairing.store rejected) = Some K1.
Proof.
  intros identity K1 K2 pins rejected.
  assert (Hpin : pairing.Lookup identity pins = Some K1) by apply lookup_insert_eq.
  assert (Hne : K2 <> K1) by discriminate.
  assert (Hno : pairing.RePair ∉ [pairing.Frame [x72%byte]; pairing.HandshakeDone K2]).
  { intros Hin. repeat (apply elem_of_cons in Hin as [Hin|Hin]; [discriminate|]).
    by apply elem_of_nil in Hin. }
  destruct (pinned_key_mismatch_is_rejected pins identity K1 K2 [[x72%byte]]
              [pairing.Frame [x72%byte]; pairing.HandshakeDone K2] Hpin Hne Hno)
    as (Hrej & Hlater & Hkeep).
  assert (E : rejected
              = pairing.mkConnection pins identity pairing.Closed [] [pairing.PinMismatch])
    by exact Hrej.
  split; [exact E|]. split; [exact Hlater|].
  rewrite E. exact Hpin.
Defined.

(** * Further properties *)

(** ** The transport *)

Section transport_more.
Import rpcclient.

(** X1. [Write] hands each message to the write channel in submission order
    and reports its full length with a nil error: after a run of writes the
    channel holds what it held, followed by the messages in order, and the
    read and close channels are as before. *)
Theorem Write_keeps_submission_order
    (messages : list (list byte)) (conn : rpcConn) (w : World) :
  closed (writeChan conn) = false ->
  writeAll conn messages w
  = Ret (set_writeChan (mkChan (pending (writeChan conn) ++ messages) false) conn,
         length <$> messages, (fun _ => None) <$> messages, w).
Proof.
  revert conn. induction messages as [|p later IH]; intros conn Hopen.
  - cbn [writeAll fmap list_fmap]. rewrite app_nil_r.
    destruct conn as [rd [pw cw] cl]. cbn in Hopen. subst cw. reflexivity.
  - cbn [writeAll]. unfold mbind at 1. unfold M_bind at 1.
    unfold Write, send. rewrite Hopen. unfold_M.
    rewrite IH by reflexivity.
    cbn [set_writeChan writeChan readChan closeChan pending fmap list_fmap].
    by rewrite <- app_assoc.
Qed.

Lemma Write_keeps_submission_order_witness :
  writeAll newRPCConn [[x01%byte; x02%byte]; []; [x03%byte]] emptyWorld
  = Ret (set_writeChan (mkChan [[x01%byte; x02%byte]; []; [x03%byte]] false) newRPCConn,
         [2; 0; 1], [None; None; None], emptyWorld).
Proof.
  exact (Write_keeps_submission_order [[x01%byte; x02%byte]; []; [x03%byte]]
           newRPCConn emptyWorld eq_refl).
Defined.

(** X2. [Close] touches the close channel only.  A [Read] after it gives
    what it would have given before, and a [Read] that would block before
    still blocks: closing does not wake a reader. *)
Theorem Close_does_not_wake_Read
    (conn conn1 : rpcConn) (e : option error) (w w1 : World) (p : list byte) :
  Close conn w = Ret (conn1, e, w1) ->
  readChan conn1 = readChan conn
  /\ writeChan conn1 = writeChan conn
  /\ Read conn1 p
     = match Read conn p with
       | Some (c, p', n, err) => Some (set_closeChan None c, p', n, err)
       | None => None
       end
  /\ (Read conn p = None -> Read conn1 p = None).
Proof.
  intros Hclose.
  assert (Hconn : conn1 = set_closeChan None conn).
  { revert Hclose. unfold Close, close.
    destruct (closeChan conn) as [ch|] eqn:Hc; unfold_M.
    - destruct (closed ch); [discriminate|]. by intros [= <- _ _].
    - intros [= <- _ _]. destruct conn as [r wr cl]. cbn in Hc. by subst cl. }
  subst conn1.
  assert (HR : Read (set_closeChan None conn) p
               = match Read conn p with
                 | Some (c, p', n, err) => Some (set_closeChan None c, p', n, err)
                 | None => None
                 end).
  { unfold Read. cbn [set_closeChan readChan].
    destruct (receive (readChan conn)) as [[m ch]|]; [|reflexivity].
    by destruct (copy p m). }
  repeat split; try done.
  intros Hnone. by rewrite HR, Hnone.
Qed.

Lemma Close_does_not_wake_Read_witness :
  Read newRPCConn [x00%byte] = None
  /\ Read (set_closeChan None newRPCConn) [x00%byte] = None.
Proof.
  assert (Hc : Close newRPCConn emptyWorld
               = Ret (set_closeChan None newRPCConn, None, mkWorld [] [IOCloseChan]))
    by reflexivity.
  destruct (Close_does_not_wake_Read _ _ _ _ _ [x00%byte] Hc) as (_ & _ & _ & Hblock).
  split; [reflexivity|]. apply Hblock. reflexivity.
Defined.

End transport_more.

(** ** Opcodes and the read loop *)

Lemma byteOfString_string_of_byte (b : byte) : byteOfString (string_of_byte b) = Some b.
Proof. destruct b; vm_compute; reflexivity. Qed.

(** X3. The opcode string [string(b)] determines the byte [b]: different
    first bytes never read as the same opcode.  Below 0x80 the string is the
    one character [b]; from 0x80 on it is two characters long, so such a byte
    matches no one-character opcode constant. *)
Theorem opcode_string_determines_first_byte (b b' : byte) :
  (string_of_byte b = string_of_byte b' -> b = b')
  /\ ((Byte.to_N b < 128)%N -> string_of_byte b = String (ascii_of_byte b) EmptyString)
  /\ ((128 <= Byte.to_N b)%N -> String.length (string_of_byte b) = 2).
Proof.
  split; [|split].
  - intros Heq.
    pose proof (byteOfString_string_of_byte b) as Hb.
    rewrite Heq, byteOfString_string_of_byte in Hb. congruence.
  - destruct b; vm_compute; intros H; (reflexivity || discriminate H).
  - destruct b; vm_compute; intros H; (reflexivity || (exfalso; by apply H)).
Qed.

Lemma opcode_string_determines_first_byte_witness :
  string_of_byte "r"%byte = "r"
  /\ String.length (string_of_byte xf2%byte) = 2.
Proof.
  destruct (opcode_string_determines_first_byte "r"%byte "r"%byte) as (_ & Hlow & _).
  destruct (opcode_string_determines_first_byte xf2%byte xf2%byte) as (_ & _ & Hhigh).
  split; [apply Hlow; reflexivity | apply Hhigh; discriminate].
Defined.

Section loop_more.
Context {O : Type} `{ops : OpCodes}.
Import rpcclient.

Lemma delivered_readOpen (p : list byte) (c : RPCClient O) : readOpen (delivered p c).
Proof. reflexivity. Qed.

Lemma delivered_onEvent (p : list byte) (c : RPCClient O) :
  onEvent (delivered p c) = onEvent c.
Proof. reflexivity. Qed.

Lemma delivered_pending (p : list byte) (c : RPCClient O) :
  pending (readChan (rpcConnection (delivered p c)))
  = pending (readChan (rpcConnection c)) ++ [p].
Proof. reflexivity. Qed.

Lemma parseMessage_by_kind (c : RPCClient O) (o : O) (message : list byte) (w : World) :
  readOpen c ->
  parseMessage c o message w =
    match frameKind message with
    | FEmpty => Ret (c, o, mkWorld (log w ++ [emptyLine]) (io w))
    | FSampleInfo => Ret (c, onEvent c EventSampleInfoChange o, w)
    | FVerificationProgress => Ret (c, onEvent c EventVerificationProgressChange o, w)
    | FRpc payload => Ret (delivered payload c, o, w)
    | FUnknown => Ret (c, o, mkWorld (log w ++ [noOpCodeLine]) (io w))
    end.
Proof.
  intros Hopen. destruct message as [|b rest]; [reflexivity|].
  rewrite (parseMessage_cons c o b rest w Hopen). unfold frameKind.
  repeat case_decide; reflexivity.
Qed.

Lemma set_rpcConnection_same (c : RPCClient O) :
  set_rpcConnection (rpcConnection c) c = c.
Proof. by destruct c. Qed.

Lemma deliveredAll_frame (payloads : list (list byte)) (c : RPCClient O) :
  pending (readChan (rpcConnection (deliveredAll payloads c)))
    = pending (readChan (rpcConnection c)) ++ payloads
  /\ set_rpcConnection (rpcConnection c) (deliveredAll payloads c) = c
  /\ writeChan (rpcConnection (deliveredAll payloads c)) = writeChan (rpcConnection c)
  /\ closeChan (rpcConnection (deliveredAll payloads c)) = closeChan (rpcConnection c).
Proof.
  revert c. induction payloads as [|p payloads IH]; intros c.
  - cbn. rewrite app_nil_r. by rewrite set_rpcConnection_same.
  - unfold deliveredAll in *. cbn [foldl].
    destruct (IH (delivered p c)) as (Hp & Hs & Hw & Hc).
    rewrite Hp, Hw, Hc, delivered_pending, <- app_assoc.
    repeat split; try reflexivity.
    transitivity (set_rpcConnection (rpcConnection c) (delivered p c));
      [exact (f_equal (set_rpcConnection (rpcConnection c)) Hs) | by destruct c].
Qed.

Lemma parseMessages_run (frames : list (list byte)) (c : RPCClient O) (o : O) (w : World) :
  readOpen c ->
  parseMessages c o frames w
  = Ret (deliveredAll (rpcPayloads frames) c,
         foldl (fun o ev => onEvent c ev o) o (firedEvents frames),
         mkWorld (log w ++ dropLines frames) (io w)).
Proof.
  revert c o w. induction frames as [|m frames IH]; intros c o w Hopen.
  - cbn. rewrite app_nil_r. by destruct w.
  - cbn [parseMessages]. unfold mbind at 1. unfold M_bind at 1.
    rewrite (parseMessage_by_kind c o m w Hopen).
    unfold rpcPayloads, firedEvents, dropLines, deliveredAll in *.
    cbn [omap list_omap].
    destruct (frameKind m) as [| | |payload|]; cbn [foldl].
    + rewrite IH by exact Hopen. cbn [log io]. by rewrite <- app_assoc.
    + by rewrite IH.
    + by rewrite IH.
    + rewrite IH by apply delivered_readOpen. reflexivity.
    + rewrite IH by exact Hopen. cbn [log io]. by rewrite <- app_assoc.
Qed.

(** X4. The read loop's work on any run of frames: it never panics and does
    no I/O; the RPC payloads reach the read channel in arrival order behind
    what was pending, the events reach the observer in arrival order, every
    empty or unknown frame leaves one log line, and nothing else of the
    client (net/rpc client, write and close channels, keys) changes. *)
Theorem parseMessages_keeps_arrival_order
    (frames : list (list byte)) (c : RPCClient O) (o : O) (w : World) :
  readOpen c ->
  parseMessages c o frames w
  = Ret (deliveredAll (rpcPayloads frames) c,
         foldl (fun o ev => onEvent c ev o) o (firedEvents frames),
         mkWorld (log w ++ dropLines frames) (io w))
  /\ pending (readChan (rpcConnection (deliveredAll (rpcPayloads frames) c)))
     = pending (readChan (rpcConnection c)) ++ rpcPayloads frames
  /\ set_rpcConnection (rpcConnection c) (deliveredAll (rpcPayloads frames) c) = c
  /\ writeChan (rpcConnection (deliveredAll (rpcPayloads frames) c))
     = writeChan (rpcConnection c)
  /\ closeChan (rpcConnection (deliveredAll (rpcPayloads frames) c))
     = closeChan (rpcConnection c).
Proof.
  intros Hopen. split; [by apply parseMessages_run|].
  apply deliveredAll_frame.
Qed.

(** X5. A frame with the RPC opcode followed by a [Read] into a buffer at
    least as long as the payload: with nothing pending before, the buffer
    starts with the payload (the frame without its opcode byte), the count is
    the payload's length, and the read channel is empty again. *)
Theorem rpc_frame_then_Read_gives_payload
    (c : RPCClient O) (o : O) (b : byte) (payload p : list byte) (w : World) :
  readOpen c ->
  pending (readChan (rpcConnection c)) = [] ->
  frameKind (b :: payload) = FRpc payload ->
  length payload <= length p ->
  exists c',
    parseMessage c o (b :: payload) w = Ret (c', o, w)
    /\ Read (rpcConnection c') p
       = Some (rpcConnection c, payload ++ drop (length payload) p, length payload, None).
Proof.
  intros Hopen Hempty Hkind Hlen.
  exists (delivered payload c). split.
  - by rewrite (parseMessage_by_kind c o _ w Hopen), Hkind.
  - unfold Read, receive, delivered. cbn [rpcConnection set_rpcConnection readChan
      set_readChan pending closed].
    rewrite Hempty. cbn [app]. unfold copy.
    rewrite Nat.min_r by exact Hlen. rewrite firstn_all.
    unfold set_readChan. cbn [readChan writeChan closeChan].
    destruct c as [? ? ? ? ? ? ? ? ? ? ? ? [[pr cr] wr cl]]. cbn in *.
    unfold readOpen in Hopen. cbn in Hopen. by subst.
Qed.

End loop_more.

Lemma parseMessages_keeps_arrival_order_witness :
  parseMessages (ops := opCodes) demoClient tt
    [["r"%byte; x01%byte]; []; ["d"%byte]; [xff%byte]; ["r"%byte]] emptyWorld
  = Ret (deliveredAll [[x01%byte]; []] demoClient, tt,
         mkWorld [emptyLine; noOpCodeLine] []).
Proof.
  destruct (parseMessages_keeps_arrival_order (ops := opCodes)
              [["r"%byte; x01%byte]; []; ["d"%byte]; [xff%byte]; ["r"%byte]]
              demoClient tt emptyWorld eq_refl) as (Hrun & _).
  exact Hrun.
Defined.

Lemma rpc_frame_then_Read_gives_payload_witness :
  exists c',
    rpcclient.parseMessage (ops := opCodes) demoClient tt
      ["r"%byte; x0a%byte; x0b%byte] emptyWorld = Ret (c', tt, emptyWorld)
    /\ rpcclient.Read (rpcclient.rpcConnection c') [x00%byte; x00%byte; x00%byte]
       = Some (rpcclient.newRPCConn, [x0a%byte; x0b%byte; x00%byte], 2, None).
Proof.
  apply (rpc_frame_then_Read_gives_payload (ops := opCodes) demoClient tt "r"%byte
           [x0a%byte; x0b%byte] [x00%byte; x00%byte; x00%byte] emptyWorld);
    [reflexivity | reflexivity | reflexivity | simpl; lia].
Defined.

(** ** The facade, operation by operation *)

Section facade_more.
Context `{net : Network}.
Import rpcclient bitboxbase.

Lemma perform_live (op : Operation) (f : Fields) (c : rpcclient.RPCClient Fields)
    (cl : Client) (w : World) :
  active f = true ->
  client c = Some cl ->
  exists e' w',
    perform op (mkBitBoxBase f (Some c)) w
      = Ret (mkBitBoxBase (if changesStatus op then changeStatus StatusInitialized f else f)
               (Some c), e', w')
    /\ io w' = io w ++ callsOf op cl
    /\ (e' = None <-> remoteFailure op cl = None)
    /\ (forall e, remoteFailure op cl = Some e -> e' = Some e \/ e' = Some (ErrWithStack e)).
Proof.
  intros Hact Hcl.
  unfold remoteFailure, callsOf.
  destruct (answer (kindOf op) cl (methodOf op) (argsOf op) (zeroOf (kindOf op)))
    as [reply err] eqn:Hans.
  destruct op; cbn [kindOf methodOf argsOf zeroOf errorResponseOf changesStatus] in *;
    unfold perform, MiddlewareInfo, VerificationProgress, ReindexBitcoin, ResyncBitcoin,
      GetHostname, SetHostname, UserAuthenticate, UserChangePassword, MountFlashdrive,
      UnmountFlashdrive, BackupSysconfig, BackupHSMSecret, RestoreSysconfig,
      RestoreHSMSecret, forward, rpcclient.GetSampleInfo, rpcclient.GetVerificationProgress,
      rpcclient.ReindexBitcoin, rpcclient.ResyncBitcoin, rpcclient.GetHostname,
      rpcclient.SetHostname, rpcclient.UserAuthenticate, rpcclient.UserChangePassword,
      rpcclient.MountFlashdrive, rpcclient.UnmountFlashdrive, rpcclient.BackupSysconfig,
      rpcclient.BackupHSMSecret, rpcclient.RestoreSysconfig, rpcclient.RestoreHSMSecret,
      errorResponseCall, deref;
    cbn [fields rpcClient]; rewrite Hact; cbn [negb];
    unfold mbind, M_bind, mret, M_ret, logInfo, logErrorWith;
    cbn beta iota; rewrite Hcl, Client_Call_live;
    cbv [String.append]; rewrite Hans;
    destruct err as [ce|]; cbn beta iota;
    try (destruct (rpcmessages.Success _) eqn:Hs; cbn [negb]);
    eexists _, _; (split; [reflexivity|]);
    (split; [unfold callWorld; destruct (closing cl); cbn [io log];
             by rewrite ?app_nil_r |]);
    (split; [done|]); intros e He; simplify_eq; auto.
Qed.

(** X6. On an active base with a live client an operation returns a nil
    error exactly when its remote call did not fail: no transport error and,
    where the reply carries an [ErrorResponse], one that reports success. *)
Theorem operation_succeeds_iff_call_succeeds (op : Operation) (f : Fields)
    (c : rpcclient.RPCClient Fields) (cl : Client) (w : World) :
  active f = true ->
  client c = Some cl ->
  exists base' e' w',
    perform op (mkBitBoxBase f (Some c)) w = Ret (base', e', w')
    /\ (e' = None <-> remoteFailure op cl = None).
Proof.
  intros Hact Hcl.
  destruct (perform_live op f c cl w Hact Hcl) as (e' & w' & Hrun & _ & Hiff & _).
  eauto.
Qed.

(** X7. On an active base with a live client an operation issues exactly one
    remote call, to the method of the RPC server it stands for, and no other
    I/O; once the net/rpc client is closing it issues none. *)
Theorem operation_issues_one_call (op : Operation) (f : Fields)
    (c : rpcclient.RPCClient Fields) (cl : Client) (w : World) :
  active f = true ->
  client c = Some cl ->
  exists base' e' w',
    perform op (mkBitBoxBase f (Some c)) w = Ret (base', e', w')
    /\ io w' = io w ++ (if closing cl then [] else [IORpcCall (methodOf op)]).
Proof.
  intros Hact Hcl.
  destruct (perform_live op f c cl w Hact Hcl) as (e' & w' & Hrun & Hio & _).
  eauto.
Qed.

Lemma refused_when_inactive (op : Operation) (base : BitBoxBase)
    (w : World) :
  active (fields base) = false ->
  perform op base w = Ret (base, Some nonActive, w).
Proof.
  intros Hact.
  destruct op; unfold perform, MiddlewareInfo, VerificationProgress, ReindexBitcoin,
    ResyncBitcoin, GetHostname, SetHostname, UserAuthenticate, UserChangePassword,
    MountFlashdrive, UnmountFlashdrive, BackupSysconfig, BackupHSMSecret,
    RestoreSysconfig, RestoreHSMSecret, forward;
    rewrite Hact; reflexivity.
Qed.

(** X8. On a base that is not active every operation returns the non-active
    error at once: no remote call, no log line, the base as it was, and no
    panic even when the base holds no client at all. *)
Theorem inactive_base_refuses_every_operation (op : Operation) (base : BitBoxBase)
    (w : World) :
  active (fields base) = false ->
  perform op base w = Ret (base, Some nonActive, w).
Proof. apply refused_when_inactive. Qed.

End facade_more.

Lemma operation_succeeds_iff_call_succeeds_witness :
  exists base' e' w',
    bitboxbase.perform (net := netStatus 200) (bitboxbase.OpSetHostname "node")
      activeBase emptyWorld = Ret (base', e', w')
    /\ (e' = None <->
        remoteFailure (net := netStatus 200) (bitboxbase.OpSetHostname "node")
          rpcclient.NewClient = None).
Proof.
  exact (operation_succeeds_iff_call_succeeds (net := netStatus 200)
           (bitboxbase.OpSetHostname "node") activeFields baseClient rpcclient.NewClient
           emptyWorld eq_refl eq_refl).
Defined.

Lemma operation_issues_one_call_witness :
  exists base' e' w',
    bitboxbase.perform (net := netCallsFail) bitboxbase.OpBackupSysconfig
      activeBase emptyWorld = Ret (base', e', w')
    /\ io w' = [IORpcCall "RPCServer.BackupSysconfig"].
Proof.
  exact (operation_issues_one_call (net := netCallsFail) bitboxbase.OpBackupSysconfig
           activeFields baseClient rpcclient.NewClient emptyWorld eq_refl eq_refl).
Defined.

Lemma inactive_base_refuses_every_operation_witness :
  bitboxbase.perform (net := netDown) bitboxbase.OpGetHostname
    (bitboxbase.mkBitBoxBase (bitboxbase.fields registeredBase) None) emptyWorld
  = Ret (bitboxbase.mkBitBoxBase (bitboxbase.fields registeredBase) None,
         Some bitboxbase.nonActive, emptyWorld).
Proof.
  exact (inactive_base_refuses_every_operation (net := netDown) bitboxbase.OpGetHostname
           (bitboxbase.mkBitBoxBase (bitboxbase.fields registeredBase) None) emptyWorld
           eq_refl).
Defined.

(** ** The base: construction, connection, deregistration *)

Section base_more.
Context `{net : Network} `{pkg : rpcclient.Package bitboxbase.Fields}.
Import rpcclient bitboxbase.

Lemma beforeColon_prefix (s : string) : exists rest : string, s = beforeColon s +:+ rest.
Proof.
  induction s as [|a s [rest IH]]; [by exists ""|].
  cbn [beforeColon]. destruct (Ascii.eqb a ":"%char).
  - by exists (String a s).
  - exists rest. exact (f_equal (String a) IH).
Qed.

(** X9. The address a base keeps is the part of the given address before
    its first colon: it holds no colon, the given address starts with it, and
    an address without a colon is kept whole. *)
Theorem beforeColon_is_the_host_part (s : string) :
  ~ hasColon (beforeColon s)
  /\ (exists rest : string, s = beforeColon s +:+ rest)
  /\ (~ hasColon s -> beforeColon s = s)
  /\ (hasColon s -> exists rest : string, s = beforeColon s +:+ ":" +:+ rest).
Proof.
  unfold hasColon. split; [|split; [apply beforeColon_prefix|split]].
  - induction s as [|a s IH]; [by intros []|].
    cbn [beforeColon]. destruct (Ascii.eqb a ":"%char) eqn:Ha; [by intros []|].
    cbn. intros [->|Hin]; [|by apply IH].
    by rewrite Ascii.eqb_refl in Ha.
  - induction s as [|a s IH]; [done|].
    cbn. intros Hno. destruct (Ascii.eqb a ":"%char) eqn:Ha.
    + apply Ascii.eqb_eq in Ha. exfalso. apply Hno. by left.
    + f_equal. apply IH. intros Hin. apply Hno. by right.
  - induction s as [|a s IH]; [by intros []|].
    cbn. destruct (Ascii.eqb a ":"%char) eqn:Ha.
    + apply Ascii.eqb_eq in Ha. subst a. intros _. by exists s.
    + intros [->|Hin]; [by rewrite Ascii.eqb_refl in Ha|].
      destruct (IH Hin) as [rest Hrest]. exists rest. exact (f_equal (String a) Hrest).
Qed.

(** X10. [NewBitBoxBase] always returns a base, after exactly one probe of
    the whole address: inactive, in status StatusConnected, keeping the host
    part of the address.  The base holds a client exactly when the probe
    answered 200, and the error is non-nil exactly when the GET itself
    failed; the client, when there is one, has the whole address, a fresh
    connection and no net/rpc client yet. *)
Theorem NewBitBoxBase_always_returns_a_base
    (address id dir : string) (now : Z) (w : World) :
  exists c err w',
    NewBitBoxBase address id dir now w
      = Ret (mkBitBoxBase
               (mkFields [] id now (beforeColon address) "" "" dir StatusConnected false [])
               c, err, w')
    /\ io w' = io w ++ [IOHttpGet (probeURL address)]
    /\ (is_Some c <-> httpGet (probeURL address) = HttpResponse StatusOK)
    /\ (is_Some err <-> exists e, httpGet (probeURL address) = HttpFail e)
    /\ (forall c0, c = Some c0 ->
          c0 = mkRPCClient address dir [] "" false false None None
                 changeStatus fireEvent Deregister None newRPCConn).
Proof.
  unfold NewBitBoxBase, NewRPCClient, rpcclient.Ping. cbn [rpcclient.address].
  fold (probeURL address). unfold_M. cbn [io log].
  destruct (httpGet (probeURL address)) as [e|code] eqn:Hget; cbn [negb].
  - eexists _, _, _. split; [reflexivity|]. cbn [io].
    unfold is_Some.
      repeat split;
        first [ done | by intros [? ?] | by eexists | by intros ? [= <-]
              | by intros [= ->] | by intros [= <-] ].
  - destruct (decide (code ≠ StatusOK)) as [Hne|Heq]; cbn [negb].
    + eexists _, _, _. split; [reflexivity|]. cbn [io].
      unfold is_Some.
      repeat split;
        first [ done | by intros [? ?] | by eexists | by intros ? [= <-]
              | by intros [= ->] | by intros [= <-] ].
    + apply dec_stable in Heq. subst code.
      eexists _, _, _. split; [reflexivity|]. cbn [io].
      unfold is_Some.
      repeat split;
        first [ done | by intros [? ?] | by eexists | by intros ? [= <-]
              | by intros [= ->] | by intros [= <-] ].
Qed.

(** X11. After a probe answered with a status other than 200 the caller of
    [NewBitBoxBase] holds a base with a nil client and a nil error, and every
    method that goes through the client pointer panics on it:
    [ConnectRPCClient], [Ping], [Close] and [ChannelHash]. *)
Theorem base_without_client_panics
    (address id dir : string) (now : Z) (w : World) (code : Z) :
  httpGet (probeURL address) = HttpResponse code ->
  code <> StatusOK ->
  exists base w',
    NewBitBoxBase address id dir now w = Ret (base, None, w')
    /\ rpcClient base = None
    /\ forall v, isPanic (ConnectRPCClient base v) /\ isPanic (bitboxbase.Ping base v)
                 /\ isPanic (bitboxbase.Close base v) /\ isPanic (bitboxbase.ChannelHash base v).
Proof.
  intros Hget Hne.
  unfold NewBitBoxBase, NewRPCClient, rpcclient.Ping. cbn [rpcclient.address].
  fold (probeURL address). unfold_M. rewrite Hget.
  rewrite decide_True by exact Hne. cbn [negb].
  eexists _, _. split; [reflexivity|]. split; [reflexivity|].
  intros v. repeat split.
Qed.

Lemma Connect_stops_early (c : rpcclient.RPCClient Fields) (o : Fields) (w : World) :
  httpGet (probeURL (rpcclient.address c)) <> HttpResponse StatusOK
  \/ (exists e, websocketDial (dialURL (rpcclient.address c)) = DialFail e) ->
  exists err w',
    Connect c o w = Ret (c, o, err, w')
    /\ (err = None <->
        exists code, httpGet (probeURL (rpcclient.address c)) = HttpResponse code
                     /\ code <> StatusOK).
Proof.
  intros Hearly. unfold Connect. fold (dialURL (rpcclient.address c)).
  unfold mbind at 1. unfold M_bind at 1. unfold logInfo.
  unfold mbind at 1. unfold M_bind at 1.
  destruct (httpGet (probeURL (rpcclient.address c))) as [e|code] eqn:Hget.
  - rewrite (Ping_fail _ _ e Hget). cbn [negb]. unfold_M.
    eexists _, _. split; [reflexivity|]. split; [done|]. by intros (? & ? & _).
  - destruct (decide (code = StatusOK)) as [->|Hne].
    + destruct Hearly as [Hbad|[e Hdial]]; [done|].
      rewrite (Ping_200 _ _ Hget). cbn [negb]. unfold_M. rewrite Hdial.
      eexists _, _. split; [reflexivity|]. split; [done|].
      intros (code & [= <-] & Hne). done.
    + rewrite (Ping_non200 _ _ code Hget Hne). cbn [negb]. unfold_M.
      eexists _, _. split; [reflexivity|]. split; [|done]. intros _. by exists code.
Qed.

(** X12. A [Connect] that stops at the probe or at the dial changes neither
    the client nor the callbacks' owner; its error is nil exactly when the
    probe was answered with a status other than 200. *)
Theorem Connect_before_handshake_changes_nothing
    (c : rpcclient.RPCClient Fields) (o : Fields) (w : World) :
  httpGet (probeURL (rpcclient.address c)) <> HttpResponse StatusOK
  \/ (exists e, websocketDial (dialURL (rpcclient.address c)) = DialFail e) ->
  exists err w',
    Connect c o w = Ret (c, o, err, w')
    /\ (err = None <->
        exists code, httpGet (probeURL (rpcclient.address c)) = HttpResponse code
                     /\ code <> StatusOK).
Proof. apply Connect_stops_early. Qed.

(** X13. When the GET of the probe fails, or the probe succeeds and the dial
    fails, [ConnectRPCClient] returns the error and leaves the base as it
    was: not activated, network and port not assigned. *)
Theorem ConnectRPCClient_failure_leaves_base
    (base : BitBoxBase) (c : rpcclient.RPCClient Fields) (w : World) :
  rpcClient base = Some c ->
  (exists e, httpGet (probeURL (rpcclient.address c)) = HttpFail e)
  \/ (httpGet (probeURL (rpcclient.address c)) = HttpResponse StatusOK
      /\ exists e, websocketDial (dialURL (rpcclient.address c)) = DialFail e) ->
  exists e' w', ConnectRPCClient base w = Ret (base, Some e', w').
Proof.
  intros Hc Hfail. unfold ConnectRPCClient. rewrite Hc.
  unfold deref. unfold mbind at 1. unfold M_bind at 1. unfold mret at 1. unfold M_ret at 1.
  unfold mbind at 1. unfold M_bind at 1.
  destruct (Connect_stops_early c (fields base) w) as (err & w' & -> & Hnil).
  { destruct Hfail as [[e He]|[_ Hd]]; [left; by rewrite He | by right]. }
  destruct err as [e|].
  - unfold_M. destruct base. cbn in *. subst. eauto.
  - destruct Hnil as [Hnil _]. destruct (Hnil eq_refl) as (code & Hcode & Hne).
    destruct Hfail as [[e He]|[H200 _]]; congruence.
Qed.

End base_more.

Section base_life.
Context `{net : Network} `{pkg : rpcclient.Package bitboxbase.Fields}.
Import rpcclient bitboxbase.

(** X14. [Deregister] succeeds once.  On an active base it notifies the
    disconnect under the base's subject, hands the base's identifier to the
    unregister callback, clears the activity flag and keeps the status; on
    the base it leaves, another [Deregister] returns an error and changes
    nothing, and every operation is refused without a remote call. *)
Theorem Deregister_succeeds_once (f : Fields) :
  active f = true ->
  exists f1,
    Deregister f = (f1, None)
    /\ active f1 = false
    /\ status f1 = status f
    /\ notified f1 = notified f ++ [disconnectNote f]
    /\ unregistered f1 = unregistered f ++ [bitboxBaseID f]
    /\ Deregister f1 = (f1, Some (ErrNew "Attempted call to non-active base"))
    /\ forall op c w,
         perform op (mkBitBoxBase f1 c) w = Ret (mkBitBoxBase f1 c, Some nonActive, w).
Proof.
  intros Hact. unfold Deregister at 1. rewrite Hact. cbn [negb].
  eexists. split; [reflexivity|].
  repeat split.
  intros op c w.
  destruct op; reflexivity.
Qed.

Lemma Stop_leaves_closing (c c1 : rpcclient.RPCClient Fields) (w w1 : World) :
  Stop c w = Ret (c1, w1) ->
  exists cl, client c1 = Some cl /\ closing cl = true.
Proof.
  unfold Stop. destruct (client c) as [cl|]; [|discriminate].
  unfold Client_Close. destruct (closing cl) eqn:Hclosing; unfold_M.
  - intros [= <- _]. by exists cl.
  - destruct (rpcclient.Close (rpcConnection c) w) as [?|[[conn' [e|]] v']];
      [discriminate| |]; intros [= <- _]; by eexists.
Qed.

(** X15. [Close] shuts the net/rpc client down and leaves the fields of the
    base alone: the base stays active.  Every operation on it afterwards
    returns the shutdown error, bare or under a stack-trace wrapper, without
    any I/O. *)
Theorem operations_after_Close_report_shutdown
    (base base' : BitBoxBase) (w w' : World) (op : Operation) (v : World) :
  bitboxbase.Close base w = Ret (base', w') ->
  active (fields base) = true ->
  fields base' = fields base
  /\ exists b e v',
       perform op base' v = Ret (b, Some e, v')
       /\ (e = ErrShutdown \/ e = ErrWithStack ErrShutdown)
       /\ io v' = io v.
Proof.
  intros Hclose Hact. revert Hclose. unfold bitboxbase.Close.
  destruct (rpcClient base) as [c|]; [|discriminate].
  unfold deref. unfold mbind at 1. unfold M_bind at 1. unfold mret at 1. unfold M_ret at 1.
  unfold mbind at 1. unfold M_bind at 1.
  destruct (Stop c w) as [?|[c1 w1]] eqn:Hstop; [discriminate|].
  unfold_M. intros [= <- <-]. cbn [fields]. split; [reflexivity|].
  destruct (Stop_leaves_closing _ _ _ _ Hstop) as (cl & Hcl & Hclosing).
  destruct (perform_live op (fields base) c1 cl v Hact Hcl)
    as (e' & v' & Hrun & Hio & _ & Herr).
  assert (Hfail : remoteFailure op cl = Some ErrShutdown).
  { unfold remoteFailure, answer. by rewrite Hclosing. }
  unfold callsOf in Hio. rewrite Hclosing, app_nil_r in Hio.
  destruct (Herr _ Hfail) as [-> | ->]; eexists _, _, _; eauto.
Qed.

(** X16. A [ConnectRPCClient] that returns a nil error leaves an active base
    that holds a client with a live net/rpc client, and the network and the
    electrs port of the base are those of the GetSystemEnv reply.  No
    operation on that base panics. *)
Theorem ConnectRPCClient_success_activates
    (base base' : BitBoxBase) (w w' : World) :
  ConnectRPCClient base w = Ret (base', None, w') ->
  active (fields base') = true
  /\ (exists c cl reply,
        rpcClient base' = Some c /\ client c = Some cl /\ closing cl = false
        /\ rpcCall KGetEnv "RPCServer.GetSystemEnv" (ArgDummy true)
             rpcmessages.GetEnvResponse_zero = (reply, None)
        /\ network (fields base') = rpcmessages.Network reply
        /\ electrsRPCPort (fields base') = rpcmessages.ElectrsRPCPort reply)
  /\ forall op v, exists b e v', perform op base' v = Ret (b, e, v').
Proof.
  unfold ConnectRPCClient.
  destruct (rpcClient base) as [c|]; [|discriminate].
  unfold deref. unfold mbind at 1. unfold M_bind at 1. unfold mret at 1. unfold M_ret at 1.
  unfold mbind at 1. unfold M_bind at 1.
  destruct (Connect c (fields base) w) as [?|[[[c1 f1] [e|]] w1]]; [discriminate| |].
  { unfold_M. discriminate. }
  unfold GetEnv. unfold mbind, M_bind.
  destruct (client c1) as [cl|] eqn:Hcl; [|discriminate].
  rewrite Client_Call_live. unfold answer.
  destruct (closing cl) eqn:Hclosing; [unfold_M; discriminate|].
  destruct (rpcCall KGetEnv "RPCServer.GetSystemEnv" (ArgDummy true)
              rpcmessages.GetEnvResponse_zero) as [reply [e|]] eqn:Hcall;
    [unfold_M; discriminate|].
  unfold_M. intros [= <- <-]. cbn [fields rpcClient set_fields].
  split; [reflexivity|]. split.
  - exists c1, cl, reply. by repeat split.
  - intros op v.
    destruct (perform_live op (set_active true
                 (set_env (rpcmessages.Network reply) (rpcmessages.ElectrsRPCPort reply) f1))
                c1 cl v eq_refl Hcl) as (e' & v' & Hrun & _).
    eauto.
Qed.

Lemma perform_without_client (op : Operation) (base : BitBoxBase) (w : World) :
  active (fields base) = true ->
  rpcClient base = None \/ (exists c, rpcClient base = Some c /\ client c = None) ->
  isPanic (perform op base w).
Proof.
  intros Hact Hnil.
  destruct op; unfold perform, MiddlewareInfo, VerificationProgress, ReindexBitcoin,
    ResyncBitcoin, GetHostname, SetHostname, UserAuthenticate, UserChangePassword,
    MountFlashdrive, UnmountFlashdrive, BackupSysconfig, BackupHSMSecret,
    RestoreSysconfig, RestoreHSMSecret, forward, rpcclient.GetSampleInfo,
    rpcclient.GetVerificationProgress, rpcclient.ReindexBitcoin, rpcclient.ResyncBitcoin,
    rpcclient.GetHostname, rpcclient.SetHostname, rpcclient.UserAuthenticate,
    rpcclient.UserChangePassword, rpcclient.MountFlashdrive, rpcclient.UnmountFlashdrive,
    rpcclient.BackupSysconfig, rpcclient.BackupHSMSecret, rpcclient.RestoreSysconfig,
    rpcclient.RestoreHSMSecret, errorResponseCall, deref, Client_Call;
    rewrite Hact; cbn [negb];
    destruct Hnil as [-> | (c & -> & Hc)];
    unfold mbind, M_bind, mret, M_ret, logInfo, panic; cbn beta iota;
    rewrite ?Hc; exact I.
Qed.

(** X17. An operation panics exactly when the base is active and has no
    client, or a client without a net/rpc client, to call through. *)
Theorem operation_panics_iff_no_client (op : Operation) (base : BitBoxBase) (w : World) :
  isPanic (perform op base w)
  <-> active (fields base) = true
      /\ (rpcClient base = None \/ exists c, rpcClient base = Some c /\ client c = None).
Proof.
  split.
  - intros Hpanic. destruct (active (fields base)) eqn:Hact.
    + split; [reflexivity|].
      destruct base as [f [c|]]; [|by left]. right. exists c. split; [reflexivity|].
      destruct (client c) as [cl|] eqn:Hcl; [|reflexivity].
      destruct (perform_live op f c cl w Hact Hcl) as (e' & w' & Hrun & _).
      rewrite Hrun in Hpanic. destruct Hpanic.
    + rewrite (refused_when_inactive op base w Hact) in Hpanic.
      destruct Hpanic.
  - intros [Hact Hnil]. by apply perform_without_client.
Qed.

Lemma perform_fields (op : Operation) (base base' : BitBoxBase) (e : option error)
    (w w' : World) :
  perform op base w = Ret (base', e, w') ->
  rpcClient base' = rpcClient base
  /\ fields base'
     = (if changesStatus op && active (fields base)
        then changeStatus StatusInitialized (fields base) else fields base).
Proof.
  intros Hrun. destruct (active (fields base)) eqn:Hact.
  - destruct base as [f [c|]].
    + destruct (client c) as [cl|] eqn:Hcl.
      * destruct (perform_live op f c cl w Hact Hcl) as (e1 & w1 & Hlive & _).
        rewrite Hlive in Hrun. injection Hrun as <- _ _.
        by rewrite andb_true_r.
      * pose proof (perform_without_client op (mkBitBoxBase f (Some c)) w Hact
                      (or_intror (ex_intro _ c (conj eq_refl Hcl)))) as Hp.
        rewrite Hrun in Hp. destruct Hp.
    + pose proof (perform_without_client op (mkBitBoxBase f None) w Hact
                    (or_introl eq_refl)) as Hp.
      rewrite Hrun in Hp. destruct Hp.
  - rewrite (refused_when_inactive op base w Hact) in Hrun.
    injection Hrun as <- _ _. by rewrite andb_false_r.
Qed.

Lemma fireEvent_wellAddressed (ev : Event) (f : Fields) :
  wellAddressed f -> wellAddressed (fireEvent ev f).
Proof.
  unfold wellAddressed, fireEvent. cbn. intros Hf.
  apply Forall_app. split; [exact Hf|]. by apply Forall_singleton.
Qed.

Lemma changeStatus_wellAddressed (s : Status) (f : Fields) :
  wellAddressed f -> wellAddressed (changeStatus s f).
Proof. intros Hf. unfold changeStatus. by apply fireEvent_wellAddressed. Qed.

(** X18. An operation that returns has changed nothing of the base but,
    for ReindexBitcoin and ResyncBitcoin on an active base, the status and
    the notifications: the client pointer, identifier, address, network,
    port and activity are as before, at most one notification was added, and
    if every earlier notification carried the base's subject so does it. *)
Theorem operations_touch_status_and_notifications_only
    (op : Operation) (base base' : BitBoxBase) (e : option error) (w w' : World) :
  perform op base w = Ret (base', e, w') ->
  rpcClient base' = rpcClient base
  /\ sameButStatus (fields base) (fields base')
  /\ (changesStatus op = false -> fields base' = fields base)
  /\ (exists added, notified (fields base') = notified (fields base) ++ added
                    /\ length added <= 1)
  /\ (wellAddressed (fields base) -> wellAddressed (fields base')).
Proof.
  intros Hrun. destruct (perform_fields _ _ _ _ _ _ Hrun) as [Hc Hf].
  split; [exact Hc|]. rewrite Hf.
  destruct (changesStatus op && active (fields base)) eqn:Hb.
  - split_and!.
    + by unfold sameButStatus.
    + intros Hno. by rewrite Hno in Hb.
    + eexists. split; [reflexivity|]. cbn. lia.
    + apply changeStatus_wellAddressed.
  - split_and!; try done.
    exists []. rewrite app_nil_r. split; [reflexivity|]. cbn. lia.
Qed.

(** X19. The callbacks a base hands to its client (status change, event,
    unregister), run in any number and order, never activate the base and
    never change its identifier or address; they only add notifications
    behind the ones there, each under the base's own subject. *)
Theorem callbacks_never_activate (cbs : list Callback) (f : Fields) :
  wellAddressed f ->
  active f = false ->
  let f' := foldl callback f cbs in
  wellAddressed f'
  /\ active f' = false
  /\ bitboxBaseID f' = bitboxBaseID f
  /\ address f' = address f
  /\ unregistered f' = unregistered f
  /\ exists added, notified f' = notified f ++ added.
Proof.
  revert f. induction cbs as [|cb cbs IH]; intros f Hwf Hact; cbn [foldl].
  - split_and!; try done. exists []. by rewrite app_nil_r.
  - assert (Hstep : wellAddressed (callback f cb) /\ active (callback f cb) = false
                    /\ bitboxBaseID (callback f cb) = bitboxBaseID f
                    /\ address (callback f cb) = address f
                    /\ unregistered (callback f cb) = unregistered f
                    /\ exists added, notified (callback f cb) = notified f ++ added).
    { destruct cb as [s|ev|]; cbn [callback].
      - split; [by apply changeStatus_wellAddressed|]. split_and!; try done.
        by eexists.
      - split; [by apply fireEvent_wellAddressed|]. split_and!; try done.
        by eexists.
      - unfold Deregister. rewrite Hact. cbn.
        split_and!; try done. exists []. by rewrite app_nil_r. }
    destruct Hstep as (Hwf1 & Hact1 & Hid1 & Haddr1 & Hun1 & added1 & Hn1).
    destruct (IH _ Hwf1 Hact1) as (Hwf2 & Hact2 & Hid2 & Haddr2 & Hun2 & added2 & Hn2).
    split_and!; try congruence.
    exists (added1 ++ added2). by rewrite Hn2, Hn1, <- app_assoc.
Qed.

End base_life.

Lemma base_without_client_panics_witness :
  exists base w',
    bitboxbase.NewBitBoxBase (net := netStatus 503) "192.168.1.10:8845" "base-1" "/config" 0
      emptyWorld = Ret (base, None, w')
    /\ bitboxbase.rpcClient base = None
    /\ forall v,
         isPanic (bitboxbase.ConnectRPCClient (net := netStatus 503)
                    (pkg := pkgQuiet _) base v)
         /\ isPanic (bitboxbase.Ping (net := netStatus 503) base v)
         /\ isPanic (bitboxbase.Close base v)
         /\ isPanic (bitboxbase.ChannelHash base v).
Proof.
  apply (base_without_client_panics (net := netStatus 503) (pkg := pkgQuiet _)
           "192.168.1.10:8845" "base-1" "/config" 0 emptyWorld 503);
    [reflexivity | unfold StatusOK; lia].
Defined.

Lemma Connect_before_handshake_changes_nothing_witness :
  exists err w',
    rpcclient.Connect (net := netDown) (pkg := pkgQuiet _)
      (rpcclient.set_client None baseClient) activeFields emptyWorld
    = Ret (rpcclient.set_client None baseClient, activeFields, err, w')
    /\ (err = None <->
        exists code, @httpGet netDown (probeURL "192.168.1.10:8845") = HttpResponse code
                     /\ code <> StatusOK).
Proof.
  apply (Connect_before_handshake_changes_nothing (net := netDown) (pkg := pkgQuiet _)
           (rpcclient.set_client None baseClient) activeFields emptyWorld).
  left. discriminate.
Defined.

Lemma ConnectRPCClient_failure_leaves_base_witness :
  exists e' w',
    bitboxbase.ConnectRPCClient (net := netDown) (pkg := pkgQuiet _) registeredBase emptyWorld
    = Ret (registeredBase, Some e', w').
Proof.
  apply (ConnectRPCClient_failure_leaves_base (net := netDown) (pkg := pkgQuiet _)
           registeredBase (rpcclient.set_client None baseClient) emptyWorld eq_refl).
  left. by eexists.
Defined.

Lemma Deregister_succeeds_once_witness :
  exists f1,
    bitboxbase.Deregister activeFields = (f1, None)
    /\ bitboxbase.active f1 = false
    /\ bitboxbase.status f1 = StatusConnected
    /\ bitboxbase.notified f1 = [disconnectNote activeFields]
    /\ bitboxbase.unregistered f1 = ["base-1"]
    /\ bitboxbase.Deregister f1 = (f1, Some (ErrNew "Attempted call to non-active base"))
    /\ forall op c w,
         bitboxbase.perform (net := netStatus 200) op (bitboxbase.mkBitBoxBase f1 c) w
         = Ret (bitboxbase.mkBitBoxBase f1 c, Some bitboxbase.nonActive, w).
Proof.
  exact (Deregister_succeeds_once (net := netStatus 200) activeFields eq_refl).
Defined.

Lemma operations_after_Close_report_shutdown_witness :
  exists base' w',
    bitboxbase.Close activeBase emptyWorld = Ret (base', w')
    /\ bitboxbase.fields base' = activeFields
    /\ exists b e v',
         bitboxbase.perform (net := netStatus 200) bitboxbase.OpGetHostname base' emptyWorld
         = Ret (b, Some e, v')
         /\ (e = ErrShutdown \/ e = ErrWithStack ErrShutdown)
         /\ io v' = [].
Proof.
  eexists _, _. split; [reflexivity|].
  exact (operations_after_Close_report_shutdown (net := netStatus 200) activeBase _
           emptyWorld _ bitboxbase.OpGetHostname emptyWorld eq_refl eq_refl).
Defined.

Lemma ConnectRPCClient_success_activates_witness :
  exists base' w',
    bitboxbase.ConnectRPCClient (net := netStatus 200) (pkg := pkgQuiet _)
      registeredBase emptyWorld = Ret (base', None, w')
    /\ bitboxbase.active (bitboxbase.fields base') = true
    /\ forall op v, exists b e v',
         bitboxbase.perform (net := netStatus 200) op base' v = Ret (b, e, v').
Proof.
  assert (Hrun : bitboxbase.ConnectRPCClient (net := netStatus 200) (pkg := pkgQuiet _)
                   registeredBase emptyWorld
                 = Ret (bitboxbase.mkBitBoxBase
                          (bitboxbase.set_active true (bitboxbase.fields registeredBase))
                          (Some baseClient),
                        None,
                        mkWorld [mkLog LInfo "connecting to base websocket" None]
                          (connectSteps "192.168.1.10:8845"
                           ++ [IORpcCall "RPCServer.GetSystemEnv"])))
    by reflexivity.
  eexists _, _. split; [exact Hrun|].
  destruct (ConnectRPCClient_success_activates (net := netStatus 200) (pkg := pkgQuiet _)
              registeredBase _ emptyWorld _ Hrun) as (Hact & _ & Hops).
  split; [exact Hact | exact Hops].
Defined.

Lemma operations_touch_status_and_notifications_only_witness :
  exists base' e w',
    bitboxbase.perform (net := netCallsFail) bitboxbase.OpResyncBitcoin activeBase emptyWorld
    = Ret (base', e, w')
    /\ bitboxbase.rpcClient base' = Some baseClient
    /\ sameButStatus activeFields (bitboxbase.fields base')
    /\ (wellAddressed activeFields -> wellAddressed (bitboxbase.fields base')).
Proof.
  assert (Hrun : bitboxbase.perform (net := netCallsFail) bitboxbase.OpResyncBitcoin
                   activeBase emptyWorld
                 = Ret (bitboxbase.mkBitBoxBase
                          (bitboxbase.changeStatus StatusInitialized activeFields)
                          (Some baseClient),
                        Some (ErrWithStack (ErrExternal "unexpected EOF")),
                        mkWorld [mkLog LInfo "bitboxbase is making a ResyncBitcoin call" None;
                                 mkLog LInfo "Executing ResyncBitcoin rpc call" None]
                                [IORpcCall "RPCServer.ResyncBitcoin"]))
    by reflexivity.
  eexists _, _, _. split; [exact Hrun|].
  destruct (operations_touch_status_and_notifications_only (net := netCallsFail)
              bitboxbase.OpResyncBitcoin activeBase _ _ emptyWorld _ Hrun)
    as (Hc & Hsame & _ & _ & Hwf).
  split; [exact Hc|]. split; [exact Hsame | exact Hwf].
Defined.

Lemma callbacks_never_activate_witness :
  let f := bitboxbase.fields registeredBase in
  let f' := foldl callback f [OnUnregister; OnChangeStatus StatusInitialized;
                              OnEvent EventSampleInfoChange] in
  wellAddressed f'
  /\ bitboxbase.active f' = false
  /\ bitboxbase.bitboxBaseID f' = "base-1"
  /\ bitboxbase.address f' = "192.168.1.10"
  /\ bitboxbase.unregistered f' = []
  /\ exists added, bitboxbase.notified f' = [] ++ added.
Proof.
  apply (callbacks_never_activate
           [OnUnregister; OnChangeStatus StatusInitialized; OnEvent EventSampleInfoChange]
           (bitboxbase.fields registeredBase));
    [apply Forall_nil_2 | reflexivity].
Defined.

(** ** The BitBox02 device and its keystore *)

Section bitbox02_more.
Import bitbox02.
Context {O : Type} `{names : Names} `{api : DeviceAPI}.

(** X20. A device delivers nothing and logs nothing until an observer is
    set.  With an observer set, a firmware event reaches it first and
    unchanged, followed by the keystore-available event exactly when the
    event is the status change and the device is initialized; at that moment
    and only in that status [KeystoreForConfiguration] hands out a keystore,
    whose [CosignerIndex] is the index given. *)
Theorem device_events_reach_observer_in_order
    (id : string) (fw : Firmware) (f : string -> O -> O) (ev : string) (o : O)
    (w : World) (cfg : Configuration) (index : Z) :
  let device : Device O := mkDevice fw id None in
  let observed := SetOnEvent device (Some f) in
  let line (e : string) := mkLog LInfo ("fire event: " +:+ e) None in
  NewDevice id fw w = Ret (device, mkWorld (log w ++ [mkLog LInfo "Plugged in device" None]) (io w))
  /\ onFirmwareEvent device ev o w = Ret (o, w)
  /\ onFirmwareEvent observed ev o w
     = (if decide (ev = firmware_EventStatusChanged
                   /\ Status fw = firmware_StatusInitialized)
        then Ret (f event_EventKeystoreAvailable (f ev o),
                  mkWorld (log w ++ [line ev; line event_EventKeystoreAvailable]) (io w))
        else Ret (f ev o, mkWorld (log w ++ [line ev]) (io w)))
  /\ (is_Some (KeystoreForConfiguration observed cfg index)
      <-> Status fw = firmware_StatusInitialized)
  /\ (forall ks, KeystoreForConfiguration observed cfg index = Some ks ->
                 CosignerIndex ks = index /\ configuration ks = cfg).
Proof.
  intros device observed line. split_and!.
  - reflexivity.
  - unfold onFirmwareEvent, fireEvent. cbn [onEvent device]. unfold_M.
    repeat case_decide; reflexivity.
  - unfold onFirmwareEvent, fireEvent. cbn. unfold_M. cbn [log io].
    repeat case_decide; try reflexivity; try tauto.
    cbn [log io]. by rewrite <- app_assoc.
  - unfold KeystoreForConfiguration. cbn. case_decide as Hs.
    + split; [by intros [? ?]|]. intros; contradiction.
    + split; [done|]. intros _. by eexists.
  - unfold KeystoreForConfiguration. cbn. case_decide; [done|].
    by intros ks [= <-].
Qed.

(** X21. [SupportsAccount] answers true for a bitcoin-typed coin only
    without multisig and with a script type other than P2PKH, and for a
    litecoin code only on a device that supports litecoin; for an ethereum
    coin it is the device's answer for that code; for any other coin false.
    It panics only on a bitcoin-typed coin whose meta is no script type, and
    not even then when the litecoin check has already said no. *)
Theorem SupportsAccount_cases
    (ks : keystore) (fw : Firmware) (coin : Coin) (multisig : bool) (meta : Meta) :
  match SupportsAccount ks fw coin multisig meta with
  | Ret b =>
      b = true <->
      match coin with
      | BtcCoin code =>
          ~ litecoinBlocked fw code /\ multisig = false
          /\ exists scriptType, meta = MetaScriptType scriptType
                                /\ scriptType <> ScriptTypeP2PKH
      | EthCoin code _ => SupportsETH fw code = true
      | OtherCoin _ => False
      end
  | Panic _ =>
      exists code, coin = BtcCoin code /\ ~ litecoinBlocked fw code /\ meta = MetaOther
  end.
Proof.
  unfold SupportsAccount, litecoinBlocked.
  destruct coin as [code|code erc20|code]; [|done|done].
  destruct ((String.eqb code "ltc" || String.eqb code "tltc") && negb (SupportsLTC fw))
    eqn:Hblocked.
  - split; [done|]. intros [Hno _]. exfalso. apply Hno.
    apply andb_true_iff in Hblocked as [Hcode Hltc].
    apply negb_true_iff in Hltc. split; [|exact Hltc].
    apply orb_true_iff in Hcode as [H|H]; apply String.eqb_eq in H; auto.
  - assert (Hfree : ~ ((code = "ltc" \/ code = "tltc") /\ SupportsLTC fw = false)).
    { intros [Hcode Hltc]. rewrite Hltc in Hblocked. cbn in Hblocked.
      rewrite andb_true_r in Hblocked. apply orb_false_iff in Hblocked as [H1 H2].
      destruct Hcode as [-> | ->]; [by rewrite String.eqb_refl in H1
                                   | by rewrite String.eqb_refl in H2]. }
    destruct meta as [scriptType|].
    + rewrite andb_true_iff, !negb_true_iff, bool_decide_eq_false. split.
      * intros [Hm Hs]. split_and!; [exact Hfree | exact Hm |]. by exists scriptType.
      * intros (_ & Hm & st & [= <-] & Hs). done.
    + exists code. done.
Qed.

(** X22. [VerifyAddress] returns only what the device answered: for a
    bitcoin-typed coin the error of the address query with the coin's table
    entry and the mapped script type, for an ethereum coin the error of its
    address query with the token's contract address (empty without a token).
    For a coin it cannot verify it does not return an error but panics, as it
    does for a bitcoin-typed coin with a script type outside its table: its
    own unsupported-coin errors are never reached. *)
Theorem VerifyAddress_returns_only_device_errors
    (ks : keystore) (fw : Firmware) (cfg : Configuration) (coin : Coin) :
  match VerifyAddress ks fw cfg coin with
  | Ret err =>
      match coin with
      | BtcCoin code =>
          exists msgCoin msgScriptType,
            btcMsgCoinMap !! code = Some msgCoin
            /\ msgScriptTypeOf (Configuration_ScriptType cfg) = Some msgScriptType
            /\ err = (BTCPub fw msgCoin (AbsoluteKeypath cfg) BTC_ADDRESS msgScriptType true).2
      | EthCoin code erc20 =>
          exists msgCoin,
            ethMsgCoinMap !! code = Some msgCoin
            /\ err = (ETHPub fw msgCoin (AbsoluteKeypath cfg) ETH_ADDRESS true
                        (default [] erc20)).2
      | OtherCoin _ => False
      end
  | Panic _ =>
      (CanVerifyAddress ks cfg coin).1.1 = false
      \/ exists code, coin = BtcCoin code
                      /\ msgScriptTypeOf (Configuration_ScriptType cfg) = None
  end.
Proof.
  unfold VerifyAddress, CanVerifyAddress.
  destruct coin as [code|code erc20|code]; cbn [negb fst].
  - destruct (btcMsgCoinMap !! code) as [msgCoin|] eqn:Hcoin.
    + rewrite bool_decide_eq_true_2 by (by eexists). cbn [negb default].
      destruct (msgScriptTypeOf (Configuration_ScriptType cfg)) as [st|] eqn:Hst.
      * destruct (BTCPub fw msgCoin (AbsoluteKeypath cfg) BTC_ADDRESS st true)
          as [xpub err] eqn:Hpub.
        cbn. rewrite Hpub. exists msgCoin, st. by rewrite Hpub.
      * right. by exists code.
    + rewrite bool_decide_eq_false_2 by (by intros [? ?]). cbn [negb]. by left.
  - destruct (ethMsgCoinMap !! code) as [msgCoin|] eqn:Hcoin.
    + rewrite bool_decide_eq_true_2 by (by eexists). cbn [negb].
      destruct erc20 as [a|]; cbn [default];
        destruct (ETHPub fw msgCoin (AbsoluteKeypath cfg) ETH_ADDRESS true _)
          as [addr [e|]] eqn:Hpub;
        cbn; rewrite ?Hpub; exists msgCoin; by rewrite Hpub.
    + rewrite bool_decide_eq_false_2 by (by intros [? ?]). cbn [negb]. by left.
  - by left.
Qed.

End bitbox02_more.

(** The litecoin check comes before the type assertion on [meta]. *)
Example SupportsAccount_litecoin_without_support :
  bitbox02.SupportsAccount inputs.someKeystore inputs.btcOnlyFirmware
    (bitbox02.BtcCoin "tltc") false bitbox02.MetaOther = Ret false.
Proof. reflexivity. Qed.

Example SupportsAccount_bitcoin_without_script_type :
  isPanic (bitbox02.SupportsAccount inputs.someKeystore inputs.btcOnlyFirmware
             (bitbox02.BtcCoin "btc") false bitbox02.MetaOther).
Proof. exact I. Qed.

Example VerifyAddress_unknown_coin_panics :
  bitbox02.VerifyAddress (api := inputs.failingAPI) inputs.someKeystore
    inputs.btcOnlyFirmware inputs.segwitConfiguration (bitbox02.BtcCoin "ltc")
  = Panic "CanVerifyAddress must be true".
Proof. reflexivity. Qed.

Example VerifyAddress_device_error :
  bitbox02.VerifyAddress (api := inputs.failingAPI) inputs.someKeystore
    inputs.btcOnlyFirmware inputs.segwitConfiguration (bitbox02.BtcCoin "btc")
  = Ret (Some (ErrExternal "aborted by the user")).
Proof. reflexivity. Qed.

Example firmware_status_change_on_initialized_device :
  bitbox02.onFirmwareEvent (names := inputs.names)
    (bitbox02.mkDevice inputs.btcOnlyFirmware "dev-1" (Some (fun ev seen => seen ++ [ev])))
    "statusChanged" [] emptyWorld
  = Ret (["statusChanged"; "keystoreAvailable"],
         mkWorld [mkLog LInfo "fire event: statusChanged" None;
                  mkLog LInfo "fire event: keystoreAvailable" None] []).
Proof. reflexivity. Qed.

Lemma beforeColon_is_the_host_part_witness :
  bitboxbase.beforeColon "192.168.1.10:8845" = "192.168.1.10"
  /\ ~ hasColon (bitboxbase.beforeColon "192.168.1.10:8845")
  /\ bitboxbase.beforeColon "localhost" = "localhost".
Proof.
  destruct (beforeColon_is_the_host_part "192.168.1.10:8845") as (Hno & _).
  destruct (beforeColon_is_the_host_part "localhost") as (_ & _ & Hsame & _).
  split; [reflexivity|]. split; [exact Hno|].
  apply Hsame. unfold hasColon. cbn.
  intros H. repeat (destruct H as [H|H]; [discriminate H|]). exact H.
Defined.

Section unconnected.
Context `{net : Network}.
Import rpcclient.


End unconnected.

